(** * The MCP coordinator: agent registry, task ledger and dispatcher

    A shallow embedding of [ai-dashboard-mcp/src/models/user.py] (the
    persisted records) and [ai-dashboard-mcp/src/routes/mcp.py] (the
    request handlers), followed by the properties of the handlers.

    Conventions of the embedding:
    - a [datetime] is a [Z] (microseconds since the epoch);
    - [datetime.utcnow()] is read several times while one request is
      handled; a handler receives [utcnow : nat -> timestamp], the k-th
      reading of the clock during the request;
    - a JSON document (task parameters, task result, capabilities) is
      carried as its serialised text, which is what the columns hold;
    - a handler returns the Flask pair (body, status code) and, when it
      writes, the store as committed at the end of the request;
    - what the declarations of user.py make the session do at a commit
      ([onupdate] of [Agent.updated_at], the de-association of the tasks of
      a deleted agent) is part of the commit of the handler concerned. *)

From Stdlib Require Import ZArith Lia.
From stdpp Require Import gmap strings list fin_maps sorting pretty.

Local Open Scope Z_scope.
Local Open Scope string_scope.

Definition timestamp := Z.
Definition json := string.

(** ** models/user.py *)

Module Agent.
Record t := mk {
    id : string;
    name : string;
    description : string;
    endpoint : string;
    capabilities : option json;
    status : string;
    last_heartbeat : timestamp;
    created_at : timestamp;
    updated_at : timestamp
  }.

#[global] Instance eq_dec : EqDecision t.
Proof. solve_decision. Defined.

Definition set_name (v : string) (a : t) : t :=
    mk (id a) v (description a) (endpoint a) (capabilities a) (status a)
       (last_heartbeat a) (created_at a) (updated_at a).
Definition set_description (v : string) (a : t) : t :=
    mk (id a) (name a) v (endpoint a) (capabilities a) (status a)
       (last_heartbeat a) (created_at a) (updated_at a).
Definition set_endpoint (v : string) (a : t) : t :=
    mk (id a) (name a) (description a) v (capabilities a) (status a)
       (last_heartbeat a) (created_at a) (updated_at a).
(** [set_capabilities]: [self.capabilities = json.dumps(capabilities_list)] *)
Definition set_capabilities (v : json) (a : t) : t :=
    mk (id a) (name a) (description a) (endpoint a) (Some v) (status a)
       (last_heartbeat a) (created_at a) (updated_at a).
Definition set_status (v : string) (a : t) : t :=
    mk (id a) (name a) (description a) (endpoint a) (capabilities a) v
       (last_heartbeat a) (created_at a) (updated_at a).
Definition set_last_heartbeat (v : timestamp) (a : t) : t :=
    mk (id a) (name a) (description a) (endpoint a) (capabilities a) (status a)
       v (created_at a) (updated_at a).
Definition set_updated_at (v : timestamp) (a : t) : t :=
    mk (id a) (name a) (description a) (endpoint a) (capabilities a) (status a)
       (last_heartbeat a) (created_at a) v.
End Agent.

Module Task.
Record t := mk {
    id : Z;
    task_id : string;
    agent_id : string;
    task_type : string;
    parameters : option json;
    status : string;
    result : option json;
    error_message : option string;
    priority : Z;
    created_at : timestamp;
    started_at : option timestamp;
    completed_at : option timestamp
  }.

#[global] Instance eq_dec : EqDecision t.
Proof. solve_decision. Defined.

Definition set_status (v : string) (k : t) : t :=
    mk (id k) (task_id k) (agent_id k) (task_type k) (parameters k) v
       (result k) (error_message k) (priority k) (created_at k)
       (started_at k) (completed_at k).
(** [set_parameters]: [self.parameters = json.dumps(parameters_dict)] *)
Definition set_parameters (v : json) (k : t) : t :=
    mk (id k) (task_id k) (agent_id k) (task_type k) (Some v) (status k)
       (result k) (error_message k) (priority k) (created_at k)
       (started_at k) (completed_at k).
(** [set_result]: [self.result = json.dumps(result_dict)] *)
Definition set_result (v : json) (k : t) : t :=
    mk (id k) (task_id k) (agent_id k) (task_type k) (parameters k) (status k)
       (Some v) (error_message k) (priority k) (created_at k)
       (started_at k) (completed_at k).
Definition set_error_message (v : string) (k : t) : t :=
    mk (id k) (task_id k) (agent_id k) (task_type k) (parameters k) (status k)
       (result k) (Some v) (priority k) (created_at k)
       (started_at k) (completed_at k).
Definition set_started_at (v : timestamp) (k : t) : t :=
    mk (id k) (task_id k) (agent_id k) (task_type k) (parameters k) (status k)
       (result k) (error_message k) (priority k) (created_at k)
       (Some v) (completed_at k).
Definition set_completed_at (v : timestamp) (k : t) : t :=
    mk (id k) (task_id k) (agent_id k) (task_type k) (parameters k) (status k)
       (result k) (error_message k) (priority k) (created_at k)
       (started_at k) (Some v).
End Task.

(** ** The store

    The [agent] table is keyed by its primary key [Agent.id]; the [task]
    table is the list of its rows in storage (rowid) order. *)

Record Store := mkStore {
  agents : gmap string Agent.t;
  tasks : list Task.t
}.

(** ** Responses and exceptions *)

Record SystemStatus := mkSystemStatus {
  agents_active : nat;
  agents_inactive : nat;
  agents_error : nat;
  agents_total : nat;
  tasks_pending : nat;
  tasks_running : nat;
  tasks_completed : nat;
  tasks_failed : nat;
  tasks_total : nat;
  status_timestamp : timestamp
}.

(** The JSON bodies the handlers build with [jsonify]. *)
Inductive body :=
  | ErrorBody (msg : string)            (* {'error': msg} *)
  | StatusBody (s : string)             (* {'status': s} *)
  | AgentBody (a : Agent.t)             (* agent.to_dict() *)
  | TaskBody (k : Task.t)               (* task.to_dict() *)
  | TaskListBody (l : list Task.t)      (* [task.to_dict() for task in tasks] *)
  | SystemStatusBody (s : SystemStatus)
  | EmptyBody.                          (* '' *)

Definition response : Type := body * Z.

(** What the library calls used by the handlers raise: [get_or_404] and
    [first_or_404] abort with werkzeug's [NotFound] (an [HTTPException],
    hence an [Exception]); a flush that violates a constraint raises
    [IntegrityError]; a flush that binds an integer SQLite cannot hold
    raises [OverflowError]. *)
Inductive exn :=
  | NotFound
  | IntegrityError (msg : string)
  | OverflowError (msg : string).

Inductive outcome (A : Type) :=
  | Return (a : A)
  | Raise (e : exn).
Arguments Return {A} a.
Arguments Raise {A} e.

#[global] Instance outcome_ret : MRet outcome := λ A a, Return a.
#[global] Instance outcome_bind : MBind outcome := λ A B f m,
  match m with
  | Return a => f a
  | Raise e => Raise e
  end.

(** [Model.query.get_or_404(..)] and [query.first_or_404()]. *)
Definition or_404 {A} (o : option A) : outcome A :=
  match o with
  | Some a => Return a
  | None => Raise NotFound
  end.

(** [try: ... except Exception as e: return jsonify({'error': 'Internal
    server error'}), 500]: every exception of the body, the 404 abort
    included, ends in the 500 answer; nothing the body wrote is committed. *)
Definition try_except (st : Store) (b : outcome (response * Store))
  : response * Store :=
  match b with
  | Return r => r
  | Raise _ => ((ErrorBody "Internal server error", 500), st)
  end.

(** A view function without [try]: Flask turns the abort into the 404
    answer. *)
Definition flask_view (b : outcome response) : response :=
  match b with
  | Return r => r
  | Raise NotFound => (ErrorBody "Not Found", 404)
  | Raise (IntegrityError _) => (ErrorBody "Internal Server Error", 500)
  | Raise (OverflowError _) => (ErrorBody "Internal Server Error", 500)
  end.

(** ** routes/mcp.py: the agent registry *)

(** The JSON body of POST /agents; a key is [None] when it is not in
    [data]. *)
Module Registration.
Record t := mk {
  id : option string;
  name : option string;
  endpoint : option string;
  description : option string;
  capabilities : option json
}.
End Registration.

(** [Agent.query.get(id)] / [Agent.query.filter_by(id=..).first()] *)
Definition get_agent_row (st : Store) (agent_id : string) : option Agent.t :=
  agents st !! agent_id.

Definition get_agent (st : Store) (agent_id : string) : response :=
  flask_view (
    agent ← or_404 (get_agent_row st agent_id);
    mret (AgentBody agent, 200)).

(** [for field in ['id', 'name', 'endpoint']: if field not in data] *)
Definition missing_registration_field (data : Registration.t) : option string :=
  match Registration.id data, Registration.name data, Registration.endpoint data with
  | None, _, _ => Some "id"
  | Some _, None, _ => Some "name"
  | Some _, Some _, None => Some "endpoint"
  | Some _, Some _, Some _ => None
  end.

Definition register_agent (utcnow : nat → timestamp) (data : Registration.t)
    (st : Store) : response * Store :=
  try_except st (
    match missing_registration_field data with
    | Some field =>
        mret ((ErrorBody ("Missing required field: " +:+ field), 400), st)
    | None =>
        let id := default "" (Registration.id data) in
        match get_agent_row st id with
        | Some existing_agent =>
            mret ((ErrorBody "Agent with this ID already exists", 409), st)
        | None =>
            (* the three datetime columns take their insert default *)
            let agent :=
              Agent.mk id
                (default "" (Registration.name data))
                (default "" (Registration.description data))
                (default "" (Registration.endpoint data))
                None "active" (utcnow 0%nat) (utcnow 1%nat) (utcnow 2%nat) in
            let agent :=
              match Registration.capabilities data with
              | Some c => Agent.set_capabilities c agent
              | None => agent
              end in
            mret ((AgentBody agent, 201),
                  mkStore (<[id := agent]> (agents st)) (tasks st))
        end
    end).

(** [db.session.commit()] of a loaded agent row. The flush emits an
    UPDATE only when some column differs from the loaded row, and the
    UPDATE sets [updated_at], declared with [onupdate=datetime.utcnow]
    (user.py:17), from a fresh clock reading unless the handler changed
    that column itself. *)
Definition flush_agent (now : timestamp) (old new : Agent.t) : Agent.t :=
  if decide (new = old) then old
  else if decide (Agent.updated_at new = Agent.updated_at old)
       then Agent.set_updated_at now new
       else new.

(** The JSON body of PUT /agents/<agent_id>. *)
Module AgentUpdate.
Record t := mk {
  name : option string;
  description : option string;
  endpoint : option string;
  capabilities : option json;
  status : option string
}.
End AgentUpdate.

Definition set_if {A B} (set : A → B → B) (value : option A) (b : B) : B :=
  match value with
  | Some v => set v b
  | None => b
  end.

Definition update_agent (utcnow : nat → timestamp) (agent_id : string)
    (data : AgentUpdate.t) (st : Store) : response * Store :=
  try_except st (
    agent ← or_404 (get_agent_row st agent_id);
    let agent' := set_if Agent.set_name (AgentUpdate.name data) agent in
    let agent' := set_if Agent.set_description (AgentUpdate.description data) agent' in
    let agent' := set_if Agent.set_endpoint (AgentUpdate.endpoint data) agent' in
    let agent' := set_if Agent.set_capabilities (AgentUpdate.capabilities data) agent' in
    let agent' := set_if Agent.set_status (AgentUpdate.status data) agent' in
    let agent' := Agent.set_updated_at (utcnow 0%nat) agent' in
    let agent' := flush_agent (utcnow 1%nat) agent agent' in
    mret ((AgentBody agent', 200),
          mkStore (<[agent_id := agent']> (agents st)) (tasks st))).

Definition agent_heartbeat (utcnow : nat → timestamp) (agent_id : string)
    (st : Store) : response * Store :=
  try_except st (
    agent ← or_404 (get_agent_row st agent_id);
    let agent' :=
      Agent.set_status "active"
        (Agent.set_last_heartbeat (utcnow 0%nat) agent) in
    mret ((StatusBody "heartbeat_received", 200),
          mkStore (<[agent_id := flush_agent (utcnow 1%nat) agent agent']> (agents st))
                  (tasks st))).

(** The body of the loop of [unregister_agent] on one row. *)
Definition cancel_task (now : timestamp) (k : Task.t) : Task.t :=
  Task.set_completed_at now
    (Task.set_error_message "Agent unregistered"
      (Task.set_status "cancelled" k)).

(** [Task.query.filter_by(agent_id=agent_id, status='pending')] *)
Definition pending_for (agent_id : string) (k : Task.t) : Prop :=
  Task.agent_id k = agent_id ∧ Task.status k = "pending".

#[global] Instance pending_for_dec agent_id k : Decision (pending_for agent_id k).
Proof. unfold pending_for. apply _. Defined.

(** [for task in pending_tasks: ...]: the rows are ORM objects of the
    session, so the loop updates the table in place; the n-th row it
    visits takes the n-th reading of the clock. *)
Fixpoint cancel_pending (utcnow : nat → timestamp) (agent_id : string)
    (n : nat) (l : list Task.t) : list Task.t :=
  match l with
  | [] => []
  | k :: l' =>
      if decide (pending_for agent_id k)
      then cancel_task (utcnow n) k :: cancel_pending utcnow agent_id (S n) l'
      else k :: cancel_pending utcnow agent_id n l'
  end.

(** The flush of [db.session.delete(agent)]. [Agent.tasks] is the backref
    collection of [Task.agent] (user.py:60) with the default cascade: no
    delete cascade, so the unit of work de-associates the children of a
    deleted parent by setting their foreign key to NULL before it deletes
    the parent row. [Task.agent_id] is declared [nullable=False]
    (user.py:48), so that UPDATE is rejected and the flush raises. *)
Definition deassociate (agent_id : string) (k : Task.t) : outcome Task.t :=
  if decide (Task.agent_id k = agent_id)
  then Raise (IntegrityError "NOT NULL constraint failed: task.agent_id")
  else Return k.

Fixpoint flush_tasks (f : Task.t → outcome Task.t) (l : list Task.t)
    : outcome (list Task.t) :=
  match l with
  | [] => mret []
  | k :: l' => k' ← f k; l'' ← flush_tasks f l'; mret (k' :: l'')
  end.

Definition session_delete_agent (agent_id : string) (st : Store) : outcome Store :=
  tasks' ← flush_tasks (deassociate agent_id) (tasks st);
  mret (mkStore (delete agent_id (agents st)) tasks').

Definition unregister_agent (utcnow : nat → timestamp) (agent_id : string)
    (st : Store) : response * Store :=
  try_except st (
    agent ← or_404 (get_agent_row st agent_id);
    let st1 := mkStore (agents st) (cancel_pending utcnow agent_id 0 (tasks st)) in
    st2 ← session_delete_agent agent_id st1;
    mret ((EmptyBody, 204), st2)).

(** ** routes/mcp.py: the task ledger *)

(** [if value: query = query.filter_by(field=value)]: a query argument
    that is absent or the empty string does not filter. *)
Definition filter_by (field : Task.t → string) (value : option string)
    (query : list Task.t) : list Task.t :=
  match value with
  | None => query
  | Some v => if decide (v = "") then query else filter (λ k, field k = v) query
  end.

(** [Task.priority.asc(), Task.created_at.asc()] *)
Definition task_le (k1 k2 : Task.t) : Prop :=
  (Task.priority k1 < Task.priority k2)%Z ∨
  (Task.priority k1 = Task.priority k2 ∧
   (Task.created_at k1 ≤ Task.created_at k2)%Z).

#[global] Instance task_le_dec k1 k2 : Decision (task_le k1 k2).
Proof. unfold task_le. apply _. Defined.

(** [query.order_by(..).all()]. SQL fixes the order of the rows only up to
    rows with equal keys; the embedding takes the stable sort of the rows
    in storage order, which is how the engine answers a table scan. *)
Fixpoint order_insert (k : Task.t) (l : list Task.t) : list Task.t :=
  match l with
  | [] => [k]
  | k' :: l' =>
      if decide (task_le k k') then k :: k' :: l' else k' :: order_insert k l'
  end.

Fixpoint order_by (l : list Task.t) : list Task.t :=
  match l with
  | [] => []
  | k :: l' => order_insert k (order_by l')
  end.

(** The query string of GET /tasks. *)
Module TaskFilter.
Record t := mk {
  agent_id : option string;
  status : option string;
  task_type : option string
}.
End TaskFilter.

Definition get_tasks (args : TaskFilter.t) (st : Store) : response :=
  let query := tasks st in
  let query := filter_by Task.agent_id (TaskFilter.agent_id args) query in
  let query := filter_by Task.status (TaskFilter.status args) query in
  let query := filter_by Task.task_type (TaskFilter.task_type args) query in
  (TaskListBody (order_by query), 200).

(** The JSON body of POST /tasks. *)
Module NewTask.
Record t := mk {
  agent_id : option string;
  task_type : option string;
  priority : option Z;
  parameters : option json
}.
End NewTask.

(** The integer primary key of a new row. *)
Definition next_rowid (l : list Task.t) : Z :=
  1 + foldr (λ k m, Z.max (Task.id k) m) 0 l.

(** What the database binds as an INTEGER: a signed 64-bit value. *)
Definition sqlite_integer (n : Z) : Prop := (- 2 ^ 63 ≤ n < 2 ^ 63)%Z.

#[global] Instance sqlite_integer_dec n : Decision (sqlite_integer n).
Proof. unfold sqlite_integer. apply _. Defined.

(** [db.session.add(task); db.session.commit()]: the flush raises when the
    priority does not fit an INTEGER, and when the task id is already in
    the table, [task_id] being declared [unique=True] (user.py:47). *)
Definition insert_task (task : Task.t) (l : list Task.t) : outcome (list Task.t) :=
  if decide (¬ sqlite_integer (Task.priority task))
  then Raise (OverflowError "Python int too large to convert to SQLite INTEGER")
  else if decide (Task.task_id task ∈ (Task.task_id <$> l))
  then Raise (IntegrityError "UNIQUE constraint failed: task.task_id")
  else Return (l ++ [task])%list.

Definition create_task (utcnow : nat → timestamp) (uuid4 : string)
    (data : NewTask.t) (st : Store) : response * Store :=
  try_except st (
    match NewTask.agent_id data, NewTask.task_type data with
    | None, _ => mret ((ErrorBody "Missing required field: agent_id", 400), st)
    | Some _, None => mret ((ErrorBody "Missing required field: task_type", 400), st)
    | Some agent_id, Some task_type =>
        match get_agent_row st agent_id with
        | None => mret ((ErrorBody "Agent not found", 404), st)
        | Some agent =>
            if decide (Agent.status agent ≠ "active")
            then mret ((ErrorBody "Agent is not active", 400), st)
            else
              let task :=
                Task.mk (next_rowid (tasks st)) uuid4 agent_id task_type None
                  "pending" None None (default 5 (NewTask.priority data))
                  (utcnow 0%nat) None None in
              let task :=
                match NewTask.parameters data with
                | Some p => Task.set_parameters p task
                | None => task
                end in
              tasks' ← insert_task task (tasks st);
              mret ((TaskBody task, 201), mkStore (agents st) tasks')
        end
    end).

(** [Task.query.filter_by(task_id=task_id).first()], with the position of
    the row in the table. *)
Definition find_task (st : Store) (task_id : string) : option (nat * Task.t) :=
  list_find (λ k, Task.task_id k = task_id) (tasks st).

Definition get_task (st : Store) (task_id : string) : response :=
  flask_view (
    r ← or_404 (find_task st task_id);
    mret (TaskBody r.2, 200)).

(** The JSON body of PUT /tasks/<task_id>/status. *)
Module StatusUpdate.
Record t := mk {
  status : option string;
  result : option json;
  error_message : option string
}.
End StatusUpdate.

Definition terminal_statuses : list string := ["completed"; "failed"; "cancelled"].

(** The block under [if 'status' in data:]. *)
Definition update_status_field (now : timestamp) (new_status : string)
    (task : Task.t) : Task.t :=
  let old_status := Task.status task in
  let task := Task.set_status new_status task in
  if decide (new_status = "running" ∧ old_status = "pending")
  then Task.set_started_at now task
  else if decide (new_status ∈ terminal_statuses)
       then Task.set_completed_at now task
       else task.

Definition apply_status_update (now : timestamp) (data : StatusUpdate.t)
    (task : Task.t) : Task.t :=
  let task :=
    match StatusUpdate.status data with
    | Some s => update_status_field now s task
    | None => task
    end in
  let task :=
    match StatusUpdate.result data with
    | Some r => Task.set_result r task
    | None => task
    end in
  match StatusUpdate.error_message data with
  | Some m => Task.set_error_message m task
  | None => task
  end.

Definition update_task_status (utcnow : nat → timestamp) (task_id : string)
    (data : StatusUpdate.t) (st : Store) : response * Store :=
  try_except st (
    r ← or_404 (find_task st task_id);
    let task := apply_status_update (utcnow 0%nat) data r.2 in
    mret ((TaskBody task, 200), mkStore (agents st) (<[r.1 := task]> (tasks st)))).

(** ** routes/mcp.py: the dispatcher *)

(** What [requests.post(..., timeout=30)] does: it returns a response
    with a status code, or raises a [requests.RequestException]
    (connection error, timeout, ...) whose text is [str(e)], or lets an
    exception through that is not a [RequestException] (urllib3's
    [LocationParseError] for a host label of more than 63 characters). *)
Inductive http_result :=
  | HttpResponse (status_code : Z)
  | RequestException (e : string)
  | OtherException (e : string).

Module TaskPayload.
Record t := mk {
  task_id : string;
  task_type : string;
  parameters : json
}.
End TaskPayload.

(** [json.loads(self.parameters) if self.parameters else {}] *)
Definition get_parameters (k : Task.t) : json :=
  match Task.parameters k with
  | Some p => if decide (p = "") then "{}" else p
  | None => "{}"
  end.

Definition fail_task (now : timestamp) (msg : string) (k : Task.t) : Task.t :=
  Task.set_completed_at now
    (Task.set_error_message msg (Task.set_status "failed" k)).

Definition execute_task (utcnow : nat → timestamp)
    (requests_post : string → TaskPayload.t → http_result)
    (task_id : string) (st : Store) : response * Store :=
  try_except st (
    r ← or_404 (find_task st task_id);
    let task := r.2 in
    if decide (Task.status task ≠ "pending")
    then mret ((ErrorBody "Task is not in pending status", 400), st)
    else
      match get_agent_row st (Task.agent_id task) with
      | None => mret ((ErrorBody "Agent not available", 400), st)
      | Some agent =>
          if decide (Agent.status agent ≠ "active")
          then mret ((ErrorBody "Agent not available", 400), st)
          else
            let task :=
              Task.set_started_at (utcnow 0%nat) (Task.set_status "running" task) in
            let commit k := mkStore (agents st) (<[r.1 := k]> (tasks st)) in
            let task_payload :=
              TaskPayload.mk (Task.task_id task) (Task.task_type task)
                             (get_parameters task) in
            match requests_post (Agent.endpoint agent +:+ "/execute") task_payload with
            | HttpResponse status_code =>
                if decide (status_code = 200)
                then mret ((StatusBody "task_sent_to_agent", 200), commit task)
                else
                  let task :=
                    fail_task (utcnow 1%nat)
                      ("Agent returned status " +:+ pretty status_code) task in
                  mret ((ErrorBody "Agent execution failed", 500), commit task)
            | RequestException e =>
                let task :=
                  fail_task (utcnow 1%nat)
                    ("Failed to communicate with agent: " +:+ e) task in
                mret ((ErrorBody "Failed to communicate with agent", 500), commit task)
            | OtherException e =>
                (* not caught by the inner [except]: the outer one answers,
                   after the commit that marked the task as running *)
                mret ((ErrorBody "Internal server error", 500), commit task)
            end
      end).

(** ** routes/mcp.py: the aggregate status *)

(** [Agent.query.filter_by(status=s).count()] *)
Definition count_agents (s : string) (st : Store) : nat :=
  size (filter (λ kv : string * Agent.t, Agent.status kv.2 = s) (agents st)).

(** [Task.query.filter_by(status=s).count()] *)
Definition count_tasks (s : string) (st : Store) : nat :=
  length (filter (λ k, Task.status k = s) (tasks st)).

Definition get_system_status (utcnow : nat → timestamp) (st : Store) : response :=
  let active_agents := count_agents "active" st in
  let inactive_agents := count_agents "inactive" st in
  let error_agents := count_agents "error" st in
  let pending_tasks := count_tasks "pending" st in
  let running_tasks := count_tasks "running" st in
  let completed_tasks := count_tasks "completed" st in
  let failed_tasks := count_tasks "failed" st in
  (SystemStatusBody
     (mkSystemStatus
        active_agents inactive_agents error_agents
        (active_agents + inactive_agents + error_agents)
        pending_tasks running_tasks completed_tasks failed_tasks
        (pending_tasks + running_tasks + completed_tasks + failed_tasks)
        (utcnow 0%nat)),
   200).

(** ** Running the model on the scenario of the specification *)

Definition clock0 : nat → timestamp := λ n, 1000 + Z.of_nat n.

Definition reg_a1 : Registration.t :=
  Registration.mk (Some "a1") (Some "Blog agent") (Some "http://localhost:5001")
                  None None.

Definition store_a1 : Store :=
  (register_agent clock0 reg_a1 (mkStore ∅ [])).2.

Definition store_t1 : Store :=
  (create_task (λ n, 2000 + Z.of_nat n) "t1"
     (NewTask.mk (Some "a1") (Some "write") (Some 5) None) store_a1).2.

Definition store_t2 : Store :=
  (create_task (λ n, 3000 + Z.of_nat n) "t2"
     (NewTask.mk (Some "a1") (Some "write") (Some 1) None) store_t1).2.

Definition no_filter : TaskFilter.t := TaskFilter.mk None None None.

(** * Predicates used by the properties *)

(** What one query argument of GET /tasks selects. *)
Definition field_matches (field : Task.t → string) (value : option string)
    (k : Task.t) : Prop :=
  match value with
  | None => True
  | Some v => v = "" ∨ field k = v
  end.

#[global] Instance field_matches_dec field value k :
  Decision (field_matches field value k).
Proof. destruct value; simpl; apply _. Defined.

Definition task_matches (args : TaskFilter.t) (k : Task.t) : Prop :=
  field_matches Task.agent_id (TaskFilter.agent_id args) k ∧
  field_matches Task.status (TaskFilter.status args) k ∧
  field_matches Task.task_type (TaskFilter.task_type args) k.

#[global] Instance task_matches_dec args k : Decision (task_matches args k).
Proof. unfold task_matches. apply _. Defined.







Definition filter_a1 : TaskFilter.t := TaskFilter.mk (Some "a1") None None.

(** A 2xx status code. *)
Definition success_status_code (c : Z) : Prop := (200 ≤ c < 300)%Z.

(** The target agent of a task is registered and [active]. *)
Definition agent_available (st : Store) (k : Task.t) : Prop :=
  ∃ agent, get_agent_row st (Task.agent_id k) = Some agent ∧
           Agent.status agent = "active".

(** The network call failed in a way the dispatcher handles: it raised
    a [RequestException], or it returned a status code that is not a
    success code. *)
Definition dispatch_failed (r : http_result) : Prop :=
  match r with
  | HttpResponse c => ¬ success_status_code c
  | RequestException _ => True
  | OtherException _ => False
  end.

(** The request the dispatcher sends for a task. *)
Definition dispatch_call (requests_post : string → TaskPayload.t → http_result)
    (agent : Agent.t) (k : Task.t) : http_result :=
  requests_post (Agent.endpoint agent +:+ "/execute")
    (TaskPayload.mk (Task.task_id k) (Task.task_type k) (get_parameters k)).

(** The row differs from [k] at most in status, result, error message,
    started-at and completed-at. *)
Definition same_identity (k k' : Task.t) : Prop :=
  Task.id k' = Task.id k ∧ Task.task_id k' = Task.task_id k ∧
  Task.agent_id k' = Task.agent_id k ∧ Task.task_type k' = Task.task_type k ∧
  Task.parameters k' = Task.parameters k ∧ Task.priority k' = Task.priority k ∧
  Task.created_at k' = Task.created_at k.

(** The update supplies a status, and that status is terminal. *)
Definition enters_terminal (data : StatusUpdate.t) : Prop :=
  match StatusUpdate.status data with
  | Some s => s ∈ terminal_statuses
  | None => False
  end.

#[global] Instance enters_terminal_dec data : Decision (enters_terminal data).
Proof. unfold enters_terminal. destruct (StatusUpdate.status data); apply _. Defined.

(** The rows of the scenario store, and some answers of the network. *)
Definition agent_a1 : Agent.t :=
  Agent.mk "a1" "Blog agent" "" "http://localhost:5001" None "active"
           1000 1001 1002.
Definition row_t1 : Task.t :=
  Task.mk 1 "t1" "a1" "write" None "pending" None None 5 2000 None None.
Definition row_t2 : Task.t :=
  Task.mk 2 "t2" "a1" "write" None "pending" None None 1 3000 None None.

Definition post_answers (c : Z) : string → TaskPayload.t → http_result :=
  λ _ _, HttpResponse c.
Definition post_times_out : string → TaskPayload.t → http_result :=
  λ _ _, RequestException "Read timed out. (read timeout=30)".

(** An agent whose endpoint has a host label of 64 characters, one more
    than a label may have, a pending task for it, and the network for such
    an endpoint: the URL cannot be turned into a connection, and the
    exception that says so is urllib3's own. *)
Definition long_host_endpoint : string :=
  "http://aaaaaaaaaaaaaaaaaaaaaaaaaaaaaaaaaaaaaaaaaaaaaaaaaaaaaaaaaaaaaaaa.example:5001".
Definition reg_long : Registration.t :=
  Registration.mk (Some "a9") (Some "Far agent") (Some long_host_endpoint)
                  None None.
Definition store_long : Store :=
  (create_task (λ n, 2000 + Z.of_nat n) "t1"
     (NewTask.mk (Some "a9") (Some "write") None None)
     (register_agent clock0 reg_long (mkStore ∅ [])).2).2.
Definition row_long : Task.t :=
  Task.mk 1 "t1" "a9" "write" None "pending" None None 5 2000 None None.
Definition post_unparsable : string → TaskPayload.t → http_result :=
  λ url _,
    if decide (url = long_host_endpoint +:+ "/execute")
    then OtherException "Failed to parse: label empty or too long"
    else RequestException "Connection refused".

(** The scenario store once [t2] has been handed to its agent. *)
Definition store_t2_running : Store :=
  (execute_task clock0 (post_answers 200) "t2" store_t2).2.

(** The statuses that the aggregate status reports. *)
Definition counted_task_statuses : list string :=
  ["pending"; "running"; "completed"; "failed"].
Definition counted_agent_statuses : list string :=
  ["active"; "inactive"; "error"].

(** The store without its cancelled tasks. *)
Definition without_cancelled (st : Store) : Store :=
  mkStore (agents st) (filter (λ k, Task.status k ≠ "cancelled") (tasks st)).

(** A text column that [to_dict] reports as present: [x if self.x else
    None] drops both NULL and the empty string. *)
Definition populated (o : option string) : Prop :=
  match o with
  | Some s => s ≠ ""
  | None => False
  end.

#[global] Instance populated_dec o : Decision (populated o).
Proof. destruct o; simpl; apply _. Defined.








Definition report_completed : StatusUpdate.t :=
  StatusUpdate.mk (Some "completed") (Some "true") None.
Definition row_t2_running : Task.t :=
  Task.set_started_at 1000 (Task.set_status "running" row_t2).

(** * The rest of the coordinator and the agent side *)

(** ** models/user.py and routes/mcp.py: configuration settings *)

Module Configuration.
Record t := mk {
  id : Z;
  key : string;
  value : string;
  description : string;
  created_at : timestamp;
  updated_at : timestamp
}.

#[global] Instance eq_dec : EqDecision t.
Proof. solve_decision. Defined.

Definition set_value (v : string) (c : t) : t :=
  mk (id c) (key c) v (description c) (created_at c) (updated_at c).
Definition set_description (v : string) (c : t) : t :=
  mk (id c) (key c) (value c) v (created_at c) (updated_at c).
Definition set_updated_at (v : timestamp) (c : t) : t :=
  mk (id c) (key c) (value c) (description c) (created_at c) v.
End Configuration.

(** The JSON bodies of POST /configuration and PUT /configuration/<key>. *)
Module NewConfiguration.
Record t := mk {
  key : option string;
  value : option string;
  description : option string
}.
End NewConfiguration.

Module ConfigurationUpdate.
Record t := mk {
  value : option string;
  description : option string
}.
End ConfigurationUpdate.

Inductive config_body :=
  | ConfigErrorBody (msg : string)
  | ConfigBody (c : Configuration.t)
  | ConfigListBody (l : list Configuration.t).

Definition config_response : Type := config_body * Z.

(** The [configuration] table: its rows in storage order. *)
Abbreviation config_table := (list Configuration.t).

Definition try_except_config (tbl : config_table)
    (b : outcome (config_response * config_table))
  : config_response * config_table :=
  match b with
  | Return r => r
  | Raise _ => ((ConfigErrorBody "Internal server error", 500), tbl)
  end.

Definition get_configurations (tbl : config_table) : config_response :=
  (ConfigListBody tbl, 200).

(** [Configuration.query.filter_by(key=..).first()] *)
Definition find_configuration (tbl : config_table) (key : string)
  : option (nat * Configuration.t) :=
  list_find (λ c, Configuration.key c = key) tbl.

Definition next_config_id (tbl : config_table) : Z :=
  1 + foldr (λ c m, Z.max (Configuration.id c) m) 0 tbl.

Definition create_configuration (utcnow : nat → timestamp)
    (data : NewConfiguration.t) (tbl : config_table)
  : config_response * config_table :=
  try_except_config tbl (
    match NewConfiguration.key data, NewConfiguration.value data with
    | Some key, Some value =>
        match find_configuration tbl key with
        | Some existing_config =>
            mret ((ConfigErrorBody "Configuration with this key already exists",
                   409), tbl)
        | None =>
            let config :=
              Configuration.mk (next_config_id tbl) key value
                (default "" (NewConfiguration.description data))
                (utcnow 0%nat) (utcnow 1%nat) in
            mret ((ConfigBody config, 201), (tbl ++ [config])%list)
        end
    | _, _ =>
        mret ((ConfigErrorBody "Missing required fields: key, value", 400), tbl)
    end).

(** The commit of a loaded configuration row; [updated_at] is declared
    with [onupdate=datetime.utcnow] (user.py:105), as for an agent. *)
Definition flush_configuration (now : timestamp) (old new : Configuration.t)
  : Configuration.t :=
  if decide (new = old) then old
  else if decide (Configuration.updated_at new = Configuration.updated_at old)
       then Configuration.set_updated_at now new
       else new.

Definition update_configuration (utcnow : nat → timestamp) (config_key : string)
    (data : ConfigurationUpdate.t) (tbl : config_table)
  : config_response * config_table :=
  try_except_config tbl (
    r ← or_404 (find_configuration tbl config_key);
    let config := r.2 in
    let config' :=
      set_if Configuration.set_value (ConfigurationUpdate.value data) config in
    let config' :=
      set_if Configuration.set_description
             (ConfigurationUpdate.description data) config' in
    let config' := Configuration.set_updated_at (utcnow 0%nat) config' in
    let config' := flush_configuration (utcnow 1%nat) config config' in
    mret ((ConfigBody config', 200), <[r.1 := config']> tbl)).

(** ** mcp_agent_base.py: the agent side of the contract *)

(** A PUT /tasks/<task_id>/status the agent sends: the task id of the URL
    and the JSON body. *)
Definition report : Type := string * StatusUpdate.t.

(** What the abstract [execute_task] of an agent does: it returns a
    result or raises. A result is a dict that serialises to JSON, as the
    dicts of the two agents of the repository do, or [None]. *)
Inductive exec_outcome :=
  | Returned (result : option json)
  | Raised (e : string).

(** What [handle_task_request] returns to the [/execute] endpoint. *)
Inductive agent_reply :=
  | ReplyError (msg : string)                  (* {'error': msg} *)
  | ReplyCompleted (result : option json).     (* {'status': 'completed', ..} *)

(** The JSON body of POST <agent>/execute as the agent reads it with
    [task_data.get]. *)
Module TaskData.
Record t := mk {
  task_id : option string;
  task_type : option string;
  parameters : option json
}.
End TaskData.

Module MCPAgent.
Record t := mk {
  agent_id : string;
  name : string;
  description : string;
  mcp_endpoint : string;
  agent_port : Z;
  capabilities : json
}.

(** [registration_data] of [register_with_mcp]. *)
Definition registration_data (self : t) : Registration.t :=
  Registration.mk (Some (agent_id self)) (Some (name self))
    (Some ("http://localhost:" +:+ pretty (agent_port self)))
    (Some (description self)) (Some (capabilities self)).

(** [if response.status_code == 201] of [register_with_mcp]. *)
Definition registered (status_code : Z) : bool :=
  bool_decide (status_code = 201).

(** [register_with_mcp], given what the POST did. Its [except] names
    [requests.RequestException]: another exception leaves the method, which
    then returns nothing ([None]). *)
Definition register_with_mcp (r : http_result) : option bool :=
  match r with
  | HttpResponse status_code => Some (registered status_code)
  | RequestException _ => Some false
  | OtherException _ => None
  end.

(** [update_task_status]: the request it sends. A result or an error
    message that is [None] is left out of the body. *)
Definition update_task_status (task_id status : string)
    (result : option json) (error_message : option string) : report :=
  (task_id, StatusUpdate.mk (Some status) result error_message).

Definition handle_task_request (supported_task_types : list string)
    (execute_task : string → string → json → exec_outcome)
    (task_data : TaskData.t) : list report * agent_reply :=
  let task_id := default "" (TaskData.task_id task_data) in
  let task_type := default "" (TaskData.task_type task_data) in
  let parameters := default "{}" (TaskData.parameters task_data) in
  if decide (task_id = "" ∨ task_type = "")
  then ([], ReplyError "Missing task_id or task_type")
  else if decide (task_type ∉ supported_task_types)
  then
    let error_msg := "Unsupported task type: " +:+ task_type in
    ([update_task_status task_id "failed" None (Some error_msg)],
     ReplyError error_msg)
  else
    let running := update_task_status task_id "running" None None in
    match execute_task task_id task_type parameters with
    | Returned result =>
        ([running; update_task_status task_id "completed" result None],
         ReplyCompleted result)
    | Raised e =>
        let error_msg := "Task execution failed: " +:+ e in
        ([running; update_task_status task_id "failed" None (Some error_msg)],
         ReplyError error_msg)
    end.

(** [execute_endpoint] of [SimpleFlaskAgent]. The body of the request is
    [None] when [request.json] cannot read it (not a JSON document): the
    abort is caught by [except Exception], which answers 500 before
    anything is handled. For a body it can read the answer is
    [jsonify(result)], a 200 whatever [handle_task_request] returned. What
    the endpoint gives is the reports sent and the status code of the
    answer. *)
Definition execute_endpoint (supported_task_types : list string)
    (execute_task : string → string → json → exec_outcome)
    (body : option TaskData.t) : list report * Z :=
  match body with
  | None => ([], 500)
  | Some task_data =>
      ((handle_task_request supported_task_types execute_task task_data).1, 200)
  end.
End MCPAgent.

(** [BlogCreationAgent.execute_task] and [NewsMarketAgent.execute_task]
    wrap their chain of branches in [try: ... except Exception as e: return
    {"status": "error", "message": str(e)}]; every branch, the final [else]
    for an unknown type included, returns a dict. [branches] is the chain
    (a dict or the text of the exception it raises), [error_result] the
    dict of the [except]. *)
Definition guarded_execute_task (error_result : string → json)
    (branches : string → string → json → json + string)
    : string → string → json → exec_outcome :=
  λ task_id task_type parameters,
    match branches task_id task_type parameters with
    | inl result => Returned (Some result)
    | inr e => Returned (Some (error_result e))
    end.

(** [get_supported_task_types] of the two agents. *)
Definition blog_task_types : list string :=
  ["generate_blog"; "publish_blog"; "get_blog_posts"; "generate_daily_content"].
Definition news_task_types : list string :=
  ["collect_news"; "collect_stocks"; "collect_crypto"; "get_latest_data";
   "get_trading_insights"; "get_bitcoin_analysis"; "collect_all"].

#[global] Instance http_result_eq_dec : EqDecision http_result.
Proof. solve_decision. Defined.

(** ** The two sides together *)

(** The coordinator as the agent sees it over HTTP: the status code of
    its answer to POST /agents. *)
Definition post_agents (utcnow : nat → timestamp) (data : Registration.t)
    (st : Store) : Z * Store :=
  let r := register_agent utcnow data st in
  (r.1.2, r.2).

(** [MCPAgent.start] when the POST of [register_with_mcp] reaches the
    coordinator and returns its answer: register, and start the heartbeat
    thread only when the registration succeeded. The boolean is what
    [start] returns. *)
Definition agent_start (utcnow : nat → timestamp) (self : MCPAgent.t)
    (st : Store) : bool * Store :=
  let r := post_agents utcnow (MCPAgent.registration_data self) st in
  (MCPAgent.registered r.1, r.2).

(** The coordinator handling the reports of an agent one request after
    the other; [clocks n] is the clock of the n-th of these requests. *)
Fixpoint deliver_reports (clocks : nat → nat → timestamp) (n : nat)
    (reports : list report) (st : Store) : Store :=
  match reports with
  | [] => st
  | r :: reports' =>
      deliver_reports clocks (S n) reports'
        (update_task_status (clocks n) r.1 r.2 st).2
  end.

(** A request that writes to the registry or the ledger. *)
Inductive request :=
  | RegisterAgent (data : Registration.t)
  | UpdateAgent (agent_id : string) (data : AgentUpdate.t)
  | Heartbeat (agent_id : string)
  | UnregisterAgent (agent_id : string)
  | CreateTask (uuid4 : string) (data : NewTask.t)
  | UpdateTaskStatus (task_id : string) (data : StatusUpdate.t)
  | ExecuteTask (task_id : string).

Definition handle (utcnow : nat → timestamp)
    (requests_post : string → TaskPayload.t → http_result)
    (r : request) (st : Store) : response * Store :=
  match r with
  | RegisterAgent data => register_agent utcnow data st
  | UpdateAgent agent_id data => update_agent utcnow agent_id data st
  | Heartbeat agent_id => agent_heartbeat utcnow agent_id st
  | UnregisterAgent agent_id => unregister_agent utcnow agent_id st
  | CreateTask uuid4 data => create_task utcnow uuid4 data st
  | UpdateTaskStatus task_id data => update_task_status utcnow task_id data st
  | ExecuteTask task_id => execute_task utcnow requests_post task_id st
  end.

(** A run of the coordinator: requests handled one after the other, each
    with its clock and its network. *)
Definition step : Type :=
  (nat → timestamp) * (string → TaskPayload.t → http_result) * request.

Fixpoint run (steps : list step) (st : Store) : Store :=
  match steps with
  | [] => st
  | s :: steps' => run steps' (handle s.1.1 s.1.2 s.2 st).2
  end.

(** The request is a status update of the task that supplies the status
    [pending]. *)
Definition resets (task_id : string) (r : request) : Prop :=
  match r with
  | UpdateTaskStatus task_id' data =>
      task_id' = task_id ∧ StatusUpdate.status data = Some "pending"
  | _ => False
  end.

(** [uuid.uuid4()] gave an id that no task has; the [task_id] column is
    unique, and the properties of a created task are stated for such an
    id. *)
Definition fresh_uuid (uuid4 : string) (st : Store) : Prop :=
  uuid4 ∉ (Task.task_id <$> tasks st).

Definition request_fresh (r : request) (st : Store) : Prop :=
  match r with
  | CreateTask uuid4 _ => fresh_uuid uuid4 st
  | _ => True
  end.

(** The keys of the ledger are unique. *)
Definition ledger_keys_unique (st : Store) : Prop :=
  NoDup (Task.id <$> tasks st) ∧ NoDup (Task.task_id <$> tasks st).

(** Every agent is stored under its own id, and every task belongs to a
    registered agent. *)
Definition references_resolved (st : Store) : Prop :=
  (∀ i a, agents st !! i = Some a → Agent.id a = i) ∧
  (∀ k, k ∈ tasks st → is_Some (agents st !! Task.agent_id k)).

(** Requests used in the examples. *)
Definition deactivate : AgentUpdate.t :=
  AgentUpdate.mk None None None None (Some "inactive").
Definition new_write_task : NewTask.t :=
  NewTask.mk (Some "a1") (Some "write") None None.
Definition reg_a2 : Registration.t :=
  Registration.mk (Some "a2") (Some "News agent") (Some "http://localhost:5002")
                  None None.
Definition store_a1_a2 : Store := (register_agent clock0 reg_a2 store_t2).2.

(** The ways in which a request can leave the store: as it was; with one
    agent row written; with one agent that no task references deleted;
    with one task appended; with one task rewritten in place. *)
Definition store_step (st st' : Store) : Prop :=
  st' = st ∨
  (∃ i a',
     st' = mkStore (<[i := a']> (agents st)) (tasks st) ∧
     ((agents st !! i = None ∧ Agent.id a' = i) ∨
      (∃ a, agents st !! i = Some a ∧ Agent.id a' = Agent.id a))) ∨
  (∃ i,
     st' = mkStore (delete i (agents st)) (tasks st) ∧
     i ∉ (Task.agent_id <$> tasks st)) ∨
  (∃ k,
     st' = mkStore (agents st) (tasks st ++ [k]) ∧
     (∀ k0, k0 ∈ tasks st → (Task.id k0 < Task.id k)%Z) ∧
     (Task.task_id k ∉ (Task.task_id <$> tasks st)) ∧
     is_Some (agents st !! Task.agent_id k)) ∨
  (∃ i k k',
     st' = mkStore (agents st) (<[i := k']> (tasks st)) ∧
     tasks st !! i = Some k ∧ same_identity k k').

(** The payload of the dispatcher as the agent reads it: the three keys
    are there. *)
Definition task_data_of (p : TaskPayload.t) : TaskData.t :=
  TaskData.mk (Some (TaskPayload.task_id p)) (Some (TaskPayload.task_type p))
              (Some (TaskPayload.parameters p)).

(** The POST of the dispatcher when the agent behind the endpoint is up.
    The agent handles the task, executor included, before it answers, and
    the dispatcher waits 30 seconds. [read_timeout] is [None] when the
    answer came within that time: the POST returns the status code of
    [execute_endpoint]. It is [Some e] when it did not: the POST raises
    [requests.ReadTimeout], a [RequestException], whose text is [e]. *)
Definition agent_endpoint (supported_task_types : list string)
    (execute_task : string → string → json → exec_outcome)
    (read_timeout : option string) : string → TaskPayload.t → http_result :=
  λ _ p,
    match read_timeout with
    | None =>
        HttpResponse
          (MCPAgent.execute_endpoint supported_task_types execute_task
             (Some (task_data_of p))).2
    | Some e => RequestException e
    end.

(** The reports the agent sends while it handles the dispatch of a
    task. *)
Definition reports_for (supported_task_types : list string)
    (execute_task : string → string → json → exec_outcome)
    (k : Task.t) : list report :=
  (MCPAgent.execute_endpoint supported_task_types execute_task
     (Some (task_data_of (TaskPayload.mk (Task.task_id k) (Task.task_type k)
                                         (get_parameters k))))).1.

(** Executors and agents used in the examples. *)
Definition exec_returns (r : json) : string → string → json → exec_outcome :=
  λ _ _ _, Returned (Some r).
Definition exec_raises (e : string) : string → string → json → exec_outcome :=
  λ _ _ _, Raised e.
Definition branches_raise (e : string) : string → string → json → json + string :=
  λ _ _ _, inr e.
Definition error_result_plain (e : string) : json := "error: " +:+ e.
Definition blog_agent : MCPAgent.t :=
  MCPAgent.mk "a1" "Blog agent" "" "http://localhost:5000" 5001 "[]".
Definition generate_blog_data : TaskData.t :=
  TaskData.mk (Some "t9") (Some "generate_blog") None.

(** The row of a task after the coordinator has handled a list of
    reports for it. *)
Fixpoint apply_reports (clocks : nat → nat → timestamp) (n : nat)
    (reports : list report) (k : Task.t) : Task.t :=
  match reports with
  | [] => k
  | r :: reports' =>
      apply_reports clocks (S n) reports'
        (apply_status_update (clocks n 0%nat) r.2 k)
  end.

Definition request_clocks : nat → nat → timestamp :=
  λ n m, 7000 + 100 * Z.of_nat n + Z.of_nat m.
Definition new_setting : NewConfiguration.t :=
  NewConfiguration.mk (Some "refresh_seconds") (Some "30") None.
Definition table_one : config_table :=
  (create_configuration clock0 new_setting []).2.

(** [MCPAgent.stop]: stop the heartbeat thread and unregister; the answer
    of the coordinator is only logged. *)
Definition agent_stop (utcnow : nat → timestamp) (self : MCPAgent.t)
    (st : Store) : Store :=
  (unregister_agent utcnow (MCPAgent.agent_id self) st).2.

(** * Properties *)

(** ** Listing tasks *)



#[global] Instance task_le_refl : Reflexive task_le.
Proof. intros k. right. split; [done|lia]. Qed.

#[global] Instance task_le_trans : Transitive task_le.
Proof. intros k1 k2 k3. unfold task_le. lia. Qed.

#[global] Instance task_le_total : Total task_le.
Proof. intros k1 k2. unfold task_le. lia. Qed.














Example get_tasks_scenario :
  (get_tasks filter_a1 store_t2).1
  = TaskListBody
      [Task.mk 2 "t2" "a1" "write" None "pending" None None 1 3000 None None;
       Task.mk 1 "t1" "a1" "write" None "pending" None None 5 2000 None None].
Proof. reflexivity. Qed.


(** An argument given as the empty string is dropped by [if agent_id:], so
    it selects every task rather than the tasks whose field is empty. *)
Example get_tasks_empty_argument :
  get_tasks (TaskFilter.mk (Some "") None None) store_t2
  = get_tasks no_filter store_t2.
Proof. reflexivity. Qed.


(** ** Updating the status of a task *)

Lemma update_task_status_found utcnow task_id data st i task :
  find_task st task_id = Some (i, task) →
  update_task_status utcnow task_id data st
  = ((TaskBody (apply_status_update (utcnow 0%nat) data task), 200),
     mkStore (agents st)
             (<[i := apply_status_update (utcnow 0%nat) data task]> (tasks st))).
Proof. intros Hfind. unfold update_task_status. by rewrite Hfind. Qed.

Lemma running_not_terminal : "running" ∉ terminal_statuses.
Proof.
  unfold terminal_statuses. rewrite !elem_of_cons, elem_of_nil.
  intros [?|[?|[?|[]]]]; discriminate.
Qed.

Lemma apply_status_update_fields now data task :
  let task' := apply_status_update now data task in
  Task.status task' = default (Task.status task) (StatusUpdate.status data) ∧
  Task.started_at task'
  = (if decide (StatusUpdate.status data = Some "running" ∧
                Task.status task = "pending")
     then Some now else Task.started_at task) ∧
  Task.completed_at task'
  = (if decide (enters_terminal data) then Some now else Task.completed_at task) ∧
  Task.result task'
  = from_option Some (Task.result task) (StatusUpdate.result data) ∧
  Task.error_message task'
  = from_option Some (Task.error_message task) (StatusUpdate.error_message data) ∧
  same_identity task task'.
Proof.
  destruct data as [s r m].
  unfold apply_status_update, enters_terminal, same_identity. simpl.
  destruct s as [s|]; simpl.
  - unfold update_status_field.
    destruct (decide (s = "running" ∧ Task.status task = "pending")) as [[-> Hp]|Hn].
    + rewrite decide_True by done.
      rewrite (decide_False (P := "running" ∈ terminal_statuses))
        by apply running_not_terminal.
      destruct r, m; done.
    + rewrite (decide_False (P := Some s = Some "running" ∧ _))
        by (intros [[= ->] ?]; tauto).
      destruct (decide (s ∈ terminal_statuses)); destruct r, m; done.
  - repeat case_decide; try tauto; destruct r, m; done.
Qed.



(** Re-entering [running] from another status does not reset started-at,
    and a terminal status written over itself refreshes completed-at. *)
Example update_task_status_reenter_running now task :
  Task.status task ≠ "pending" →
  Task.started_at
    (apply_status_update now (StatusUpdate.mk (Some "running") None None) task)
  = Task.started_at task.
Proof.
  intros Hne.
  destruct (apply_status_update_fields now
              (StatusUpdate.mk (Some "running") None None) task)
    as (_ & -> & _).
  rewrite decide_False; [done|]. simpl. tauto.
Qed.

(** ** Dispatching a task *)

Section dispatch.

Context (utcnow : nat → timestamp).
Context (requests_post : string → TaskPayload.t → http_result).

(** The row once the dispatcher has marked it as running. *)
Lemma execute_task_ready task_id st i task agent :
  find_task st task_id = Some (i, task) →
  Task.status task = "pending" →
  get_agent_row st (Task.agent_id task) = Some agent →
  Agent.status agent = "active" →
  execute_task utcnow requests_post task_id st
  = let running :=
      Task.set_started_at (utcnow 0%nat) (Task.set_status "running" task) in
    let commit k := mkStore (agents st) (<[i := k]> (tasks st)) in
    match dispatch_call requests_post agent task with
    | HttpResponse c =>
        if decide (c = 200)
        then ((StatusBody "task_sent_to_agent", 200), commit running)
        else ((ErrorBody "Agent execution failed", 500),
              commit (fail_task (utcnow 1%nat)
                        ("Agent returned status " +:+ pretty c) running))
    | RequestException e =>
        ((ErrorBody "Failed to communicate with agent", 500),
         commit (fail_task (utcnow 1%nat)
                   ("Failed to communicate with agent: " +:+ e) running))
    | OtherException e =>
        ((ErrorBody "Internal server error", 500), commit running)
    end.
Proof.
  intros Hfind Hpending Hagent Hactive.
  unfold execute_task, dispatch_call. rewrite Hfind. simpl.
  rewrite decide_False by (by intros []).
  rewrite Hagent. rewrite decide_False by (by intros []).
  destruct (requests_post _ _) as [c|e|e]; [|done..].
  by destruct (decide (c = 200)).
Qed.

(** C6. Dispatching an existing task whose status is not [pending], or a
    pending task whose agent is not registered or not [active], answers 400
    with an error body and commits nothing: the store, and with it the
    status, timestamps, result and error message of the task, is as
    before. *)
Theorem execute_task_precondition_failed task_id st i task :
  find_task st task_id = Some (i, task) →
  Task.status task ≠ "pending" ∨ ¬ agent_available st task →
  ∃ msg,
    execute_task utcnow requests_post task_id st = ((ErrorBody msg, 400), st).
Proof.
  intros Hfind Hpre. unfold execute_task. rewrite Hfind. simpl.
  destruct (decide (Task.status task ≠ "pending")) as [|Hpending]; [by eexists|].
  destruct Hpre as [|Hagent]; [done|].
  destruct (get_agent_row st (Task.agent_id task)) as [agent|] eqn:Hrow;
    [|by eexists].
  destruct (decide (Agent.status agent ≠ "active")) as [|Hactive]; [by eexists|].
  destruct Hagent. exists agent. split; [done|].
  by destruct (decide (Agent.status agent = "active")).
Qed.

(** C2 (as amended). Dispatching a pending task to an active agent whose
    executor answers with status code 200 returns the acknowledgement
    [task_sent_to_agent] with code 200 and leaves the task [running] with
    started-at set to now; completed-at, result and error message are as
    before. *)
Theorem execute_task_accepted task_id st i task agent :
  find_task st task_id = Some (i, task) →
  Task.status task = "pending" →
  get_agent_row st (Task.agent_id task) = Some agent →
  Agent.status agent = "active" →
  dispatch_call requests_post agent task = HttpResponse 200 →
  ∃ task',
    execute_task utcnow requests_post task_id st
    = ((StatusBody "task_sent_to_agent", 200),
       mkStore (agents st) (<[i := task']> (tasks st))) ∧
    Task.status task' = "running" ∧
    Task.started_at task' = Some (utcnow 0%nat) ∧
    Task.completed_at task' = Task.completed_at task ∧
    Task.result task' = Task.result task ∧
    Task.error_message task' = Task.error_message task ∧
    same_identity task task'.
Proof.
  intros Hfind Hpending Hagent Hactive Hcall.
  rewrite (execute_task_ready _ _ _ _ _ Hfind Hpending Hagent Hactive).
  rewrite Hcall. simpl. eexists. split; [done|]. by unfold same_identity.
Qed.

(** The two failures of the call that the dispatcher handles. Dispatching
    a pending task to an active agent when the network call raises a
    [RequestException], or returns a status code that is not a success
    code, answers 500 with an error body and leaves the task [failed] with
    a non-empty error message and completed-at set to now; the result
    column is not written. *)
Lemma execute_task_failed task_id st i task agent :
  find_task st task_id = Some (i, task) →
  Task.status task = "pending" →
  get_agent_row st (Task.agent_id task) = Some agent →
  Agent.status agent = "active" →
  dispatch_failed (dispatch_call requests_post agent task) →
  ∃ task' err msg,
    execute_task utcnow requests_post task_id st
    = ((ErrorBody err, 500), mkStore (agents st) (<[i := task']> (tasks st))) ∧
    Task.status task' = "failed" ∧
    Task.error_message task' = Some msg ∧ msg ≠ "" ∧
    Task.completed_at task' = Some (utcnow 1%nat) ∧
    Task.started_at task' = Some (utcnow 0%nat) ∧
    Task.result task' = Task.result task ∧
    same_identity task task'.
Proof.
  intros Hfind Hpending Hagent Hactive Hfailed.
  rewrite (execute_task_ready _ _ _ _ _ Hfind Hpending Hagent Hactive).
  destruct (dispatch_call requests_post agent task) as [c|e|e]; simpl in *.
  - rewrite decide_False by (intros ->; apply Hfailed; unfold success_status_code; lia).
    do 3 eexists. split; [done|]. by unfold same_identity.
  - do 3 eexists. split; [done|]. by unfold same_identity.
  - done.
Qed.

(** C3, what the code does where it departs from the property. When
    the POST of the dispatch of a pending task of an active agent fails
    with an exception that is not a [RequestException], the exception
    passes the inner [except], which is the one that marks the task as
    failed. The outer one answers 500 [Internal server error], and the
    task stays as the commit before the call left it: [running] with
    started-at set, and neither an error message nor completed-at
    written. *)
Theorem execute_task_unhandled_exception task_id st i task agent e :
  find_task st task_id = Some (i, task) →
  Task.status task = "pending" →
  get_agent_row st (Task.agent_id task) = Some agent →
  Agent.status agent = "active" →
  dispatch_call requests_post agent task = OtherException e →
  ∃ task',
    execute_task utcnow requests_post task_id st
    = ((ErrorBody "Internal server error", 500),
       mkStore (agents st) (<[i := task']> (tasks st))) ∧
    Task.status task' = "running" ∧
    Task.started_at task' = Some (utcnow 0%nat) ∧
    Task.completed_at task' = Task.completed_at task ∧
    Task.error_message task' = Task.error_message task ∧
    Task.result task' = Task.result task.
Proof.
  intros Hfind Hpending Hagent Hactive Hcall.
  rewrite (execute_task_ready _ _ _ _ _ Hfind Hpending Hagent Hactive).
  rewrite Hcall. simpl. by eexists.
Qed.

End dispatch.

Lemma execute_task_precondition_failed_witness :
  ∃ msg,
    execute_task clock0 (post_answers 200) "t2" store_t2_running
    = ((ErrorBody msg, 400), store_t2_running).
Proof.
  apply (execute_task_precondition_failed clock0 (post_answers 200) "t2"
           store_t2_running 1%nat
           (Task.set_started_at 1000 (Task.set_status "running" row_t2))).
  - reflexivity.
  - left. simpl. discriminate.
Defined.

Lemma execute_task_accepted_witness :
  ∃ task',
    execute_task clock0 (post_answers 200) "t2" store_t2
    = ((StatusBody "task_sent_to_agent", 200),
       mkStore (agents store_t2) (<[1%nat := task']> (tasks store_t2))) ∧
    Task.status task' = "running" ∧
    Task.started_at task' = Some 1000 ∧
    Task.completed_at task' = None.
Proof.
  destruct (execute_task_accepted clock0 (post_answers 200) "t2" store_t2
              1%nat row_t2 agent_a1)
    as (task' & Hexec & Hstatus & Hstart & Hcompl & _);
    [reflexivity..|].
  exists task'. repeat split; assumption.
Defined.

Lemma execute_task_failed_witness :
  ∃ task' err msg,
    execute_task clock0 post_times_out "t2" store_t2
    = ((ErrorBody err, 500),
       mkStore (agents store_t2) (<[1%nat := task']> (tasks store_t2))) ∧
    Task.status task' = "failed" ∧
    Task.error_message task' = Some msg ∧ msg ≠ "" ∧
    Task.completed_at task' = Some 1001 ∧
    Task.result task' = None.
Proof.
  destruct (execute_task_failed clock0 post_times_out "t2" store_t2
              1%nat row_t2 agent_a1)
    as (task' & err & msg & Hexec & Hstatus & Hmsg & Hne & Hcompl & _ & Hres & _);
    [reflexivity..|exact I|].
  exists task', err, msg. repeat split; assumption.
Defined.

(** The agent [a9] is registered with an endpoint whose host has a
    label of 64 characters, and [t1] is a pending task for it. The POST
    raises urllib3's [LocationParseError]: the dispatch answers 500
    [Internal server error] and [t1] is left [running], with no error
    message and no completed-at. *)
Lemma execute_task_unhandled_exception_witness :
  get_agent_row store_long "a9"
  = Some (Agent.mk "a9" "Far agent" "" long_host_endpoint None "active"
                   1000 1001 1002) ∧
  find_task store_long "t1" = Some (0%nat, row_long) ∧
  ∃ task',
    execute_task clock0 post_unparsable "t1" store_long
    = ((ErrorBody "Internal server error", 500),
       mkStore (agents store_long) (<[0%nat := task']> (tasks store_long))) ∧
    Task.status task' = "running" ∧
    Task.started_at task' = Some 1000 ∧
    Task.completed_at task' = None ∧
    Task.error_message task' = None ∧
    Task.result task' = None.
Proof.
  split; [reflexivity|]. split; [reflexivity|].
  apply (execute_task_unhandled_exception clock0 post_unparsable "t1" store_long
           0%nat row_long
           (Agent.mk "a9" "Far agent" "" long_host_endpoint None "active"
                     1000 1001 1002)
           "Failed to parse: label empty or too long");
    reflexivity.
Defined.

Example execute_task_unhandled_exception_row :
  execute_task clock0 post_unparsable "t1" store_long
  = ((ErrorBody "Internal server error", 500),
     mkStore (agents store_long)
       [Task.mk 1 "t1" "a9" "write" None "running" None None 5 2000
                (Some 1000) None]).
Proof. reflexivity. Qed.

(** C2, counterexample. 201 is a success status code, yet the dispatcher
    accepts 200 only: the caller gets the 500 answer and the task is
    [failed] with completed-at set. *)
Lemma execute_task_201_counterexample :
  success_status_code 201 ∧
  (execute_task clock0 (post_answers 201) "t2" store_t2).1
  = (ErrorBody "Agent execution failed", 500) ∧
  tasks (execute_task clock0 (post_answers 201) "t2" store_t2).2
  = [row_t1;
     Task.mk 2 "t2" "a1" "write" None "failed" None
             (Some "Agent returned status 201") 1 3000 (Some 1000) (Some 1001)].
Proof.
  split; [unfold success_status_code; lia|].
  split; reflexivity.
Qed.

(** ** Registering an agent *)

(** C8. A registration request whose id is already in the registry leaves
    the store, and so every field of the registered agent, as it was; when
    the request is a registration proper (name and endpoint supplied) the
    answer is the 409 conflict. *)
Theorem register_agent_duplicate utcnow data st id existing :
  Registration.id data = Some id →
  is_Some (Registration.name data) →
  is_Some (Registration.endpoint data) →
  agents st !! id = Some existing →
  register_agent utcnow data st
  = ((ErrorBody "Agent with this ID already exists", 409), st) ∧
  agents (register_agent utcnow data st).2 !! id = Some existing.
Proof.
  intros Hid [n Hn] [e He] Hex.
  assert (register_agent utcnow data st
          = ((ErrorBody "Agent with this ID already exists", 409), st)) as ->.
  { unfold register_agent, missing_registration_field, get_agent_row.
    rewrite Hid, Hn, He. simpl. by rewrite Hex. }
  done.
Qed.

Lemma register_agent_duplicate_witness :
  register_agent clock0 reg_a1 store_t2
  = ((ErrorBody "Agent with this ID already exists", 409), store_t2) ∧
  agents (register_agent clock0 reg_a1 store_t2).2 !! "a1" = Some agent_a1.
Proof.
  apply (register_agent_duplicate clock0 reg_a1 store_t2 "a1" agent_a1).
  - reflexivity.
  - exists "Blog agent". reflexivity.
  - exists "http://localhost:5001". reflexivity.
  - reflexivity.
Defined.

(** Whatever else the request holds or lacks, an id that is taken means
    that nothing is written. *)
Lemma register_agent_taken_unchanged utcnow data st id existing :
  Registration.id data = Some id →
  agents st !! id = Some existing →
  (register_agent utcnow data st).2 = st.
Proof.
  intros Hid Hex.
  unfold register_agent, missing_registration_field, get_agent_row.
  rewrite Hid.
  destruct (Registration.name data), (Registration.endpoint data); simpl;
    try done.
  by rewrite Hex.
Qed.

(** ** Heartbeat *)

Lemma heartbeat_no_change now agent :
  Agent.set_status "active" (Agent.set_last_heartbeat now agent) = agent
  ↔ Agent.last_heartbeat agent = now ∧ Agent.status agent = "active".
Proof.
  destruct agent; unfold Agent.set_status, Agent.set_last_heartbeat; simpl.
  split.
  - by intros [= -> ->].
  - by intros [-> ->].
Qed.

(** C9 (as amended). For a registered agent, whatever its status, the
    heartbeat answers 200, sets last-heartbeat to now and status to
    [active], and the update of the row refreshes updated-at (unless the
    row already held exactly these values, when nothing is written); id,
    name, description, endpoint, capabilities and created-at are as before,
    as is every other agent and every task. For an id that is not
    registered the heartbeat does not answer 200 and the store is as
    before. *)
Theorem agent_heartbeat_effects utcnow agent_id st :
  match agents st !! agent_id with
  | Some agent =>
      ∃ agent',
        agent_heartbeat utcnow agent_id st
        = ((StatusBody "heartbeat_received", 200),
           mkStore (<[agent_id := agent']> (agents st)) (tasks st)) ∧
        Agent.last_heartbeat agent' = utcnow 0%nat ∧
        Agent.status agent' = "active" ∧
        Agent.updated_at agent'
        = (if decide (Agent.last_heartbeat agent = utcnow 0%nat ∧
                      Agent.status agent = "active")
           then Agent.updated_at agent else utcnow 1%nat) ∧
        Agent.id agent' = Agent.id agent ∧
        Agent.name agent' = Agent.name agent ∧
        Agent.description agent' = Agent.description agent ∧
        Agent.endpoint agent' = Agent.endpoint agent ∧
        Agent.capabilities agent' = Agent.capabilities agent ∧
        Agent.created_at agent' = Agent.created_at agent
  | None =>
      (agent_heartbeat utcnow agent_id st).2 = st ∧
      (agent_heartbeat utcnow agent_id st).1.2 ≠ 200
  end.
Proof.
  unfold agent_heartbeat, get_agent_row.
  destruct (agents st !! agent_id) as [agent|]; simpl; [|done].
  eexists. split; [done|]. unfold flush_agent.
  destruct (decide (Agent.set_status "active"
                      (Agent.set_last_heartbeat (utcnow 0%nat) agent) = agent))
    as [Heq|Hne].
  - apply heartbeat_no_change in Heq as Heq'. destruct Heq' as [Hhb Hst].
    rewrite decide_True by done. done.
  - rewrite decide_True by done.
    rewrite decide_False by (by rewrite <-heartbeat_no_change).
    done.
Qed.

(** C9, counterexample. A heartbeat of the registered agent [a1] moves
    its updated-at from 1002 to the clock reading taken at the commit. *)
Lemma agent_heartbeat_updated_at_counterexample :
  agents store_a1 !! "a1" = Some agent_a1 ∧
  agents (agent_heartbeat (λ n, 5000 + Z.of_nat n) "a1" store_a1).2 !! "a1"
  = Some (Agent.mk "a1" "Blog agent" "" "http://localhost:5001" None "active"
                   5000 1001 5001) ∧
  Agent.updated_at agent_a1 ≠ 5001.
Proof. split; [reflexivity|]. split; [reflexivity|]. simpl. lia. Qed.

(** The unknown id: [get_or_404] aborts inside the [try], the handler's
    [except Exception] turns the abort into the 500 answer; the read-only
    view of the same agent, which has no [try], answers 404. *)
Example agent_heartbeat_unknown_id :
  agent_heartbeat clock0 "a2" store_t2
  = ((ErrorBody "Internal server error", 500), store_t2) ∧
  (get_agent store_t2 "a2").2 = 404.
Proof. split; reflexivity. Qed.

(** ** Unregistering an agent *)

(** What the loop of [unregister_agent] does to the rows before the
    commit: a row that is pending for the agent is cancelled with the
    message and some reading of the clock, any other row is left alone. *)
Lemma cancel_pending_rows utcnow agent_id n l :
  Forall2
    (λ k k',
       if decide (pending_for agent_id k)
       then ∃ m, k' = cancel_task (utcnow m) k
       else k' = k)
    l (cancel_pending utcnow agent_id n l).
Proof.
  revert n. induction l as [|k l IH]; intros n; simpl; [constructor|].
  destruct (decide (pending_for agent_id k)) as [Hp|Hp].
  - constructor; [|apply IH]. cbv beta. rewrite decide_True by done. by eexists.
  - constructor; [|apply IH]. cbv beta. by rewrite decide_False.
Qed.

Lemma cancel_task_fields now k :
  Task.status (cancel_task now k) = "cancelled" ∧
  Task.error_message (cancel_task now k) = Some "Agent unregistered" ∧
  Task.completed_at (cancel_task now k) = Some now ∧
  Task.result (cancel_task now k) = Task.result k ∧
  Task.started_at (cancel_task now k) = Task.started_at k ∧
  same_identity k (cancel_task now k).
Proof. by unfold same_identity. Qed.

Lemma cancel_pending_agent_ids utcnow agent_id n l :
  Task.agent_id <$> cancel_pending utcnow agent_id n l = Task.agent_id <$> l.
Proof.
  revert n. induction l as [|k l IH]; intros n; simpl; [done|].
  case_decide; simpl; by rewrite IH.
Qed.

Lemma deassociate_other agent_id k :
  Task.agent_id k ≠ agent_id → deassociate agent_id k = Return k.
Proof. intros Hne. unfold deassociate. by rewrite decide_False. Qed.

Lemma deassociate_own agent_id k :
  Task.agent_id k = agent_id → ∃ e, deassociate agent_id k = Raise e.
Proof. intros Heq. unfold deassociate. rewrite decide_True by done. by eexists. Qed.

(** The flush of the delete goes through exactly when no row references
    the agent. *)
Lemma flush_deassociate_free agent_id l :
  agent_id ∉ (Task.agent_id <$> l) →
  flush_tasks (deassociate agent_id) l = Return l.
Proof.
  induction l as [|k l IH]; simpl; [done|].
  rewrite not_elem_of_cons. intros [Hk Hl].
  rewrite deassociate_other by done. simpl.
  by rewrite IH.
Qed.

Lemma flush_deassociate_referenced agent_id l :
  agent_id ∈ (Task.agent_id <$> l) →
  ∃ e, flush_tasks (deassociate agent_id) l = Raise e.
Proof.
  induction l as [|k l IH]; simpl.
  - by rewrite elem_of_nil.
  - rewrite elem_of_cons. intros Hin.
    destruct (decide (Task.agent_id k = agent_id)) as [Heq|Hne].
    + destruct (deassociate_own _ _ Heq) as [e ->]. by eexists.
    + rewrite deassociate_other by done. simpl.
      destruct Hin as [|Hin]; [done|].
      destruct (IH Hin) as [e ->]. by eexists.
Qed.

(** An agent that no task references is deleted, and no task changes. *)
Lemma unregister_agent_without_tasks utcnow agent_id st agent :
  agents st !! agent_id = Some agent →
  agent_id ∉ (Task.agent_id <$> tasks st) →
  unregister_agent utcnow agent_id st
  = ((EmptyBody, 204), mkStore (delete agent_id (agents st)) (tasks st)).
Proof.
  intros Hagent Hfree.
  assert (cancel_pending utcnow agent_id 0 (tasks st) = tasks st) as Hsame.
  { generalize 0%nat. induction (tasks st) as [|k l IH]; intros n; simpl; [done|].
    simpl in Hfree. apply not_elem_of_cons in Hfree as [Hk Hl].
    rewrite decide_False by (intros [? _]; congruence).
    by rewrite IH. }
  unfold unregister_agent, get_agent_row, session_delete_agent.
  rewrite Hagent. simpl. rewrite Hsame.
  by rewrite flush_deassociate_free.
Qed.

(** An agent that some task references, in whatever status, cannot be
    deleted: the commit raises, the answer is 500 and the store is as
    before: the agent is still registered and its pending tasks are still
    pending. *)
Lemma unregister_agent_with_tasks utcnow agent_id st agent :
  agents st !! agent_id = Some agent →
  agent_id ∈ (Task.agent_id <$> tasks st) →
  unregister_agent utcnow agent_id st
  = ((ErrorBody "Internal server error", 500), st).
Proof.
  intros Hagent Href.
  unfold unregister_agent, get_agent_row, session_delete_agent.
  rewrite Hagent. simpl.
  destruct (flush_deassociate_referenced agent_id
              (cancel_pending utcnow agent_id 0 (tasks st))) as [e ->]; [|done].
  by rewrite cancel_pending_agent_ids.
Qed.

(** C4, the code at the failing input. Agent [a1] has the two pending
    tasks [t1] and [t2]; DELETE /agents/a1 answers 500, [a1] stays
    registered and both tasks stay pending. *)
Theorem unregister_agent_pending_tasks_fail :
  unregister_agent clock0 "a1" store_t2
  = ((ErrorBody "Internal server error", 500), store_t2) ∧
  agents store_t2 !! "a1" = Some agent_a1 ∧
  tasks store_t2 = [row_t1; row_t2] ∧
  cancel_pending clock0 "a1" 0 (tasks store_t2)
  = [cancel_task 1000 row_t1; cancel_task 1001 row_t2].
Proof.
  split; [|by repeat split].
  apply (unregister_agent_with_tasks _ _ _ agent_a1); [reflexivity|].
  simpl. apply elem_of_cons. by left.
Qed.

(** ** The aggregate status *)

Lemma count_tasks_cons s k l agts :
  count_tasks s (mkStore agts (k :: l))
  = ((if decide (Task.status k = s) then 1 else 0)
     + count_tasks s (mkStore agts l))%nat.
Proof.
  unfold count_tasks. simpl. rewrite filter_cons. by case_decide.
Qed.

Lemma counted_tasks_sum agts l :
  (count_tasks "pending" (mkStore agts l) + count_tasks "running" (mkStore agts l)
   + count_tasks "completed" (mkStore agts l) + count_tasks "failed" (mkStore agts l))%nat
  = length (filter (λ k, Task.status k ∈ counted_task_statuses) l).
Proof.
  induction l as [|k l IH]; [done|].
  rewrite !count_tasks_cons, filter_cons.
  unfold counted_task_statuses in *.
  destruct (decide (Task.status k ∈ ["pending"; "running"; "completed"; "failed"]))
    as [Hin|Hout].
  - simpl. rewrite <-IH.
    rewrite !elem_of_cons, elem_of_nil in Hin.
    destruct Hin as [->|[->|[->|[->|[]]]]]; simpl; lia.
  - rewrite <-IH.
    rewrite !not_elem_of_cons in Hout. destruct Hout as (?&?&?&?&_).
    rewrite !decide_False by done. lia.
Qed.

Lemma count_tasks_without_cancelled s st :
  s ≠ "cancelled" →
  count_tasks s (without_cancelled st) = count_tasks s st.
Proof.
  intros Hs. unfold count_tasks, without_cancelled. simpl.
  rewrite list_filter_filter. f_equal. apply list_filter_iff.
  intros k. split; [tauto|]. intros ->. done.
Qed.

Lemma size_filter_insert (P : string * Agent.t → Prop) `{!∀ x, Decision (P x)}
    (m : gmap string Agent.t) i x :
  m !! i = None →
  size (filter P (<[i:=x]> m))
  = ((if decide (P (i, x)) then 1 else 0) + size (filter P m))%nat.
Proof.
  intros Hi. destruct (decide (P (i, x))) as [HP|HP].
  - rewrite map_filter_insert_True by done.
    rewrite map_size_insert_None; [done|].
    apply map_lookup_filter_None_2. by left.
  - rewrite map_filter_insert_False by done. by rewrite delete_id.
Qed.

Lemma counted_agents_sum tsks (m : gmap string Agent.t) :
  (count_agents "active" (mkStore m tsks) + count_agents "inactive" (mkStore m tsks)
   + count_agents "error" (mkStore m tsks))%nat
  = size (filter (λ kv : string * Agent.t,
                    Agent.status kv.2 ∈ counted_agent_statuses) m).
Proof.
  unfold count_agents. simpl.
  induction m as [|i x m Hi IH] using map_ind.
  - by rewrite !map_filter_empty, !map_size_empty.
  - rewrite !size_filter_insert by done. simpl.
    unfold counted_agent_statuses in *.
    destruct (decide (Agent.status x ∈ ["active"; "inactive"; "error"]))
      as [Hin|Hout].
    + rewrite <-IH. rewrite !elem_of_cons, elem_of_nil in Hin.
      destruct Hin as [->|[->|[->|[]]]]; simpl; lia.
    + rewrite <-IH.
      rewrite !not_elem_of_cons in Hout. destruct Hout as (?&?&?&_).
      rewrite !decide_False by done. lia.
Qed.

(** C10. The aggregate status answers 200; its four task counts are the
    numbers of tasks in status [pending], [running], [completed] and
    [failed]; the task total is the sum of these four, which is the number
    of tasks whose status is one of the four; removing the cancelled tasks
    from the store changes nothing in the answer; the agent total is the
    sum of the [active], [inactive] and [error] counts, which is the number
    of agents whose status is one of the three. *)
Theorem get_system_status_counts utcnow st :
  ∃ s,
    get_system_status utcnow st = (SystemStatusBody s, 200) ∧
    tasks_pending s = length (filter (λ k, Task.status k = "pending") (tasks st)) ∧
    tasks_running s = length (filter (λ k, Task.status k = "running") (tasks st)) ∧
    tasks_completed s = length (filter (λ k, Task.status k = "completed") (tasks st)) ∧
    tasks_failed s = length (filter (λ k, Task.status k = "failed") (tasks st)) ∧
    tasks_total s
    = (tasks_pending s + tasks_running s + tasks_completed s + tasks_failed s)%nat ∧
    tasks_total s
    = length (filter (λ k, Task.status k ∈ counted_task_statuses) (tasks st)) ∧
    get_system_status utcnow (without_cancelled st) = get_system_status utcnow st ∧
    agents_active s = count_agents "active" st ∧
    agents_inactive s = count_agents "inactive" st ∧
    agents_error s = count_agents "error" st ∧
    agents_total s = (agents_active s + agents_inactive s + agents_error s)%nat ∧
    agents_total s
    = size (filter (λ kv : string * Agent.t,
                      Agent.status kv.2 ∈ counted_agent_statuses) (agents st)).
Proof.
  eexists. split; [reflexivity|]. simpl.
  repeat (split; [reflexivity|]).
  split; [destruct st; apply counted_tasks_sum|].
  split.
  { unfold get_system_status.
    by rewrite !count_tasks_without_cancelled by discriminate. }
  repeat (split; [reflexivity|]).
  destruct st. apply counted_agents_sum.
Qed.

(** A cancelled task is in none of the counts. *)
Example get_system_status_cancelled :
  (get_system_status clock0
     (mkStore (agents store_a1) [cancel_task 4000 row_t1; row_t2])).1
  = SystemStatusBody (mkSystemStatus 1 0 0 1 1 0 0 0 1 1000).
Proof. reflexivity. Qed.

(** ** The invariant of a task record *)

Lemma terminal_cases s :
  s ∈ terminal_statuses ↔ s = "completed" ∨ s = "failed" ∨ s = "cancelled".
Proof.
  unfold terminal_statuses. rewrite !elem_of_cons, elem_of_nil. tauto.
Qed.







(** The order of the timestamps is not enforced either: completed, back
    to pending, then running sets started-at after completed-at. *)
Example update_task_status_timestamps_unordered :
  let st1 := (update_task_status (λ _, 10) "t2" report_completed store_t2).2 in
  let st2 := (update_task_status (λ _, 20) "t2"
                (StatusUpdate.mk (Some "pending") None None) st1).2 in
  let st3 := (update_task_status (λ _, 30) "t2"
                (StatusUpdate.mk (Some "running") None None) st2).2 in
  tasks st3 !! 1%nat
  = Some (Task.mk 2 "t2" "a1" "write" None "running" (Some "true") None 1 3000
                  (Some 30) (Some 10)).
Proof. reflexivity. Qed.

(** The scenario of the specification: [t2] is dispatched, the agent
    accepts and later reports [completed] with a result. *)
Example scenario_dispatch_then_complete :
  let st1 := (execute_task clock0 (post_answers 200) "t2" store_t2).2 in
  let st2 := (update_task_status (λ _, 9000) "t2" report_completed st1).2 in
  (get_task st2 "t2").1
  = TaskBody (Task.mk 2 "t2" "a1" "write" None "completed" (Some "true") None
                      1 3000 (Some 1000) (Some 9000)).
Proof. reflexivity. Qed.
(** * Further properties of the coordinator *)

(** ** The registry *)

Lemma register_agent_created utcnow data st id name endpoint :
  Registration.id data = Some id →
  Registration.name data = Some name →
  Registration.endpoint data = Some endpoint →
  agents st !! id = None →
  let agent :=
    Agent.mk id name (default "" (Registration.description data)) endpoint
             (Registration.capabilities data) "active"
             (utcnow 0%nat) (utcnow 1%nat) (utcnow 2%nat) in
  register_agent utcnow data st
  = ((AgentBody agent, 201), mkStore (<[id := agent]> (agents st)) (tasks st)).
Proof.
  intros Hid Hname Hend Hfree.
  unfold register_agent, missing_registration_field, get_agent_row.
  rewrite Hid, Hname, Hend. simpl. rewrite Hfree.
  by destruct (Registration.capabilities data).
Qed.

(** X1. Registering an id that is free, with name and endpoint, answers
    201 with the new agent: status [active], the supplied name, endpoint
    and capabilities, the description or the empty text. The agent can be
    read back, and nothing else in the store changes. *)
Theorem register_agent_fresh utcnow data st id name endpoint :
  Registration.id data = Some id →
  Registration.name data = Some name →
  Registration.endpoint data = Some endpoint →
  agents st !! id = None →
  ∃ agent,
    (register_agent utcnow data st).1 = (AgentBody agent, 201) ∧
    Agent.id agent = id ∧ Agent.name agent = name ∧
    Agent.endpoint agent = endpoint ∧ Agent.status agent = "active" ∧
    Agent.description agent = default "" (Registration.description data) ∧
    Agent.capabilities agent = Registration.capabilities data ∧
    get_agent (register_agent utcnow data st).2 id = (AgentBody agent, 200) ∧
    (∀ j, j ≠ id →
       agents (register_agent utcnow data st).2 !! j = agents st !! j) ∧
    tasks (register_agent utcnow data st).2 = tasks st.
Proof.
  intros Hid Hname Hend Hfree.
  rewrite (register_agent_created _ _ _ _ _ _ Hid Hname Hend Hfree).
  eexists. split; [done|]. repeat (split; [done|]).
  split; [|split; [|done]].
  - unfold get_agent, get_agent_row. simpl. by rewrite lookup_insert_eq.
  - intros j Hj. simpl. by rewrite lookup_insert_ne.
Qed.

Lemma register_agent_fresh_witness :
  ∃ agent,
    (register_agent clock0 reg_a1 (mkStore ∅ [])).1 = (AgentBody agent, 201) ∧
    Agent.status agent = "active" ∧
    get_agent (register_agent clock0 reg_a1 (mkStore ∅ [])).2 "a1"
    = (AgentBody agent, 200).
Proof.
  destruct (register_agent_fresh clock0 reg_a1 (mkStore ∅ []) "a1"
              "Blog agent" "http://localhost:5001")
    as (agent & Hresp & _ & _ & _ & Hstatus & _ & _ & Hget & _);
    [reflexivity..|].
  exists agent. repeat split; assumption.
Defined.

(** X2. A registration that lacks a required field answers 400 and
    names the first field that is absent, in the order id, name, endpoint;
    the fields are checked before the id is looked up, so the answer is the
    same for an id that is taken. No answer other than 201 changes the
    store. *)
Theorem register_agent_answers utcnow data st :
  let r := register_agent utcnow data st in
  (Registration.id data = None →
   r = ((ErrorBody "Missing required field: id", 400), st)) ∧
  (is_Some (Registration.id data) →
   Registration.name data = None →
   r = ((ErrorBody "Missing required field: name", 400), st)) ∧
  (is_Some (Registration.id data) →
   is_Some (Registration.name data) →
   Registration.endpoint data = None →
   r = ((ErrorBody "Missing required field: endpoint", 400), st)) ∧
  (r.1.2 ≠ 201 → r.2 = st).
Proof.
  cbv zeta. unfold register_agent, missing_registration_field, get_agent_row.
  split; [|split; [|split]].
  - by intros ->.
  - by intros [id ->] ->.
  - by intros [id ->] [name ->] ->.
  - destruct (Registration.id data) as [id|]; [|done].
    destruct (Registration.name data); [|done].
    destruct (Registration.endpoint data); [|done]. simpl.
    by destruct (agents st !! id).
Qed.

Lemma register_agent_answers_witness :
  register_agent clock0
    (Registration.mk (Some "a1") None (Some "http://localhost:5001") None None)
    store_t2
  = ((ErrorBody "Missing required field: name", 400), store_t2) ∧
  register_agent clock0 (Registration.mk None None None None None) store_t2
  = ((ErrorBody "Missing required field: id", 400), store_t2).
Proof.
  split.
  - by apply (register_agent_answers clock0
                (Registration.mk (Some "a1") None (Some "http://localhost:5001")
                                 None None) store_t2).
  - by apply (register_agent_answers clock0
                (Registration.mk None None None None None) store_t2).
Defined.

(** The fields of a row after the commit are those the handler wrote,
    updated-at apart. *)
Lemma flush_agent_fields now old new :
  let a := flush_agent now old new in
  Agent.id a = Agent.id new ∧ Agent.name a = Agent.name new ∧
  Agent.description a = Agent.description new ∧
  Agent.endpoint a = Agent.endpoint new ∧
  Agent.capabilities a = Agent.capabilities new ∧
  Agent.status a = Agent.status new ∧
  Agent.last_heartbeat a = Agent.last_heartbeat new ∧
  Agent.created_at a = Agent.created_at new ∧
  (Agent.updated_at a = Agent.updated_at new ∨ Agent.updated_at a = now).
Proof.
  unfold flush_agent. destruct (decide (new = old)) as [->|_].
  - repeat split; by left.
  - case_decide; simpl; repeat split; auto.
Qed.

Lemma update_agent_found utcnow agent_id data st agent :
  agents st !! agent_id = Some agent →
  ∃ agent',
    update_agent utcnow agent_id data st
    = ((AgentBody agent', 200),
       mkStore (<[agent_id := agent']> (agents st)) (tasks st)) ∧
    Agent.name agent' = default (Agent.name agent) (AgentUpdate.name data) ∧
    Agent.description agent'
    = default (Agent.description agent) (AgentUpdate.description data) ∧
    Agent.endpoint agent'
    = default (Agent.endpoint agent) (AgentUpdate.endpoint data) ∧
    Agent.capabilities agent'
    = from_option Some (Agent.capabilities agent) (AgentUpdate.capabilities data) ∧
    Agent.status agent' = default (Agent.status agent) (AgentUpdate.status data) ∧
    Agent.id agent' = Agent.id agent ∧
    Agent.last_heartbeat agent' = Agent.last_heartbeat agent ∧
    Agent.created_at agent' = Agent.created_at agent ∧
    (Agent.updated_at agent' = utcnow 0%nat ∨
     Agent.updated_at agent' = utcnow 1%nat).
Proof.
  intros Hagent. unfold update_agent, get_agent_row. rewrite Hagent. simpl.
  eexists. split; [reflexivity|].
  match goal with |- context [flush_agent ?n ?o ?w] =>
    destruct (flush_agent_fields n o w)
      as (Hi & Hn & Hd & He & Hc & Hs & Hh & Hcr & Hu)
  end.
  rewrite Hi, Hn, Hd, He, Hc, Hs, Hh, Hcr.
  destruct data as [n d e c s]; simpl in *.
  destruct n, d, e, c, s; simpl; repeat split; try done;
    (destruct Hu as [->| ->]; [by left|by right]).
Qed.

(** X3. Updating a registered agent answers 200 with the stored row; of
    name, description, endpoint, capabilities and status exactly the
    supplied ones are written; id, last-heartbeat and created-at are never
    written; updated-at is a clock reading of this request; the other
    agents and the tasks are as before. *)
Theorem update_agent_effects utcnow agent_id data st agent :
  agents st !! agent_id = Some agent →
  ∃ agent',
    update_agent utcnow agent_id data st
    = ((AgentBody agent', 200),
       mkStore (<[agent_id := agent']> (agents st)) (tasks st)) ∧
    Agent.name agent' = default (Agent.name agent) (AgentUpdate.name data) ∧
    Agent.description agent'
    = default (Agent.description agent) (AgentUpdate.description data) ∧
    Agent.endpoint agent'
    = default (Agent.endpoint agent) (AgentUpdate.endpoint data) ∧
    Agent.capabilities agent'
    = from_option Some (Agent.capabilities agent) (AgentUpdate.capabilities data) ∧
    Agent.status agent' = default (Agent.status agent) (AgentUpdate.status data) ∧
    Agent.id agent' = Agent.id agent ∧
    Agent.last_heartbeat agent' = Agent.last_heartbeat agent ∧
    Agent.created_at agent' = Agent.created_at agent ∧
    (Agent.updated_at agent' = utcnow 0%nat ∨
     Agent.updated_at agent' = utcnow 1%nat).
Proof. apply update_agent_found. Qed.

Lemma update_agent_effects_witness :
  ∃ agent',
    (update_agent clock0 "a1" deactivate store_t2).1 = (AgentBody agent', 200) ∧
    Agent.status agent' = "inactive" ∧ Agent.name agent' = "Blog agent".
Proof.
  destruct (update_agent_effects clock0 "a1" deactivate store_t2 agent_a1)
    as (agent' & Hupd & Hname & _ & _ & _ & Hstatus & _); [reflexivity|].
  exists agent'. rewrite Hupd. repeat split; assumption.
Defined.

(** X4. An id that is not in the store makes every handler that loads
    its row inside a [try] answer 500 [Internal server error] and write
    nothing (update, heartbeat and unregistration of an agent; status
    update and dispatch of a task), while the two read-only views of the
    same rows answer 404. *)
Theorem unknown_id_answers utcnow requests_post st :
  (∀ agent_id data,
     agents st !! agent_id = None →
     update_agent utcnow agent_id data st
     = ((ErrorBody "Internal server error", 500), st) ∧
     agent_heartbeat utcnow agent_id st
     = ((ErrorBody "Internal server error", 500), st) ∧
     unregister_agent utcnow agent_id st
     = ((ErrorBody "Internal server error", 500), st) ∧
     (get_agent st agent_id).2 = 404) ∧
  (∀ task_id data,
     find_task st task_id = None →
     update_task_status utcnow task_id data st
     = ((ErrorBody "Internal server error", 500), st) ∧
     execute_task utcnow requests_post task_id st
     = ((ErrorBody "Internal server error", 500), st) ∧
     (get_task st task_id).2 = 404).
Proof.
  split.
  - intros agent_id data Hnone.
    unfold update_agent, agent_heartbeat, unregister_agent, get_agent,
      get_agent_row.
    by rewrite Hnone.
  - intros task_id data Hnone.
    unfold update_task_status, execute_task, get_task.
    by rewrite Hnone.
Qed.

Lemma unknown_id_answers_witness :
  agent_heartbeat clock0 "zz" store_t2
  = ((ErrorBody "Internal server error", 500), store_t2) ∧
  (get_agent store_t2 "zz").2 = 404 ∧
  execute_task clock0 (post_answers 200) "zz" store_t2
  = ((ErrorBody "Internal server error", 500), store_t2) ∧
  (get_task store_t2 "zz").2 = 404.
Proof.
  destruct (unknown_id_answers clock0 (post_answers 200) store_t2)
    as [Hagent Htask].
  destruct (Hagent "zz" deactivate) as (_ & Hhb & _ & Hget); [reflexivity|].
  destruct (Htask "zz" report_completed) as (_ & Hexec & Hgt); [reflexivity|].
  repeat split; assumption.
Defined.

(** X5. Unregistering a registered agent that no task references answers
    204 and removes exactly that agent: its id is then unknown, the other
    agents and the tasks are as before, and the id can be registered
    again. *)
Theorem unregister_agent_unreferenced utcnow agent_id st agent :
  agents st !! agent_id = Some agent →
  agent_id ∉ (Task.agent_id <$> tasks st) →
  let st' := (unregister_agent utcnow agent_id st).2 in
  (unregister_agent utcnow agent_id st).1 = (EmptyBody, 204) ∧
  agents st' !! agent_id = None ∧
  (get_agent st' agent_id).2 = 404 ∧
  (∀ j, j ≠ agent_id → agents st' !! j = agents st !! j) ∧
  tasks st' = tasks st ∧
  (∀ utcnow' data name endpoint,
     Registration.id data = Some agent_id →
     Registration.name data = Some name →
     Registration.endpoint data = Some endpoint →
     (register_agent utcnow' data st').1.2 = 201).
Proof.
  intros Hagent Hfree.
  rewrite (unregister_agent_without_tasks _ _ _ _ Hagent Hfree). simpl.
  assert (delete agent_id (agents st) !! agent_id = None) as Hgone
    by apply lookup_delete_eq.
  split; [done|]. split; [done|].
  split; [unfold get_agent, get_agent_row; simpl; by rewrite Hgone|].
  split; [intros j Hj; by apply lookup_delete_ne|].
  split; [done|].
  intros utcnow' data name endpoint Hid Hname Hend.
  by rewrite (register_agent_created utcnow' data
                (mkStore (delete agent_id (agents st)) (tasks st))
                _ _ _ Hid Hname Hend Hgone).
Qed.

Lemma unregister_agent_unreferenced_witness :
  (unregister_agent clock0 "a2" store_a1_a2).1 = (EmptyBody, 204) ∧
  agents (unregister_agent clock0 "a2" store_a1_a2).2 !! "a2" = None ∧
  tasks (unregister_agent clock0 "a2" store_a1_a2).2 = tasks store_a1_a2.
Proof.
  destruct (unregister_agent_unreferenced clock0 "a2" store_a1_a2
              (Agent.mk "a2" "News agent" "" "http://localhost:5002" None
                        "active" 1000 1001 1002))
    as (Hresp & Hgone & _ & _ & Htasks & _).
  - reflexivity.
  - assert (Task.agent_id <$> tasks store_a1_a2 = ["a1"; "a1"]) as ->
      by reflexivity.
    rewrite !not_elem_of_cons, elem_of_nil.
    repeat split; discriminate || tauto.
  - repeat split; assumption.
Defined.

(** X6. Unregistration never commits a change to a task: whatever the
    id, the tasks of the store are as before; the answer is 204 exactly
    when the agent is registered and no task references it. *)
Theorem unregister_agent_keeps_tasks utcnow agent_id st :
  tasks (unregister_agent utcnow agent_id st).2 = tasks st ∧
  ((unregister_agent utcnow agent_id st).1.2 = 204
   ↔ is_Some (agents st !! agent_id) ∧
     agent_id ∉ (Task.agent_id <$> tasks st)).
Proof.
  destruct (agents st !! agent_id) as [agent|] eqn:Hagent.
  - destruct (decide (agent_id ∈ (Task.agent_id <$> tasks st))) as [Hin|Hout].
    + rewrite (unregister_agent_with_tasks _ _ _ _ Hagent Hin). simpl.
      split; [done|]. split; [done|]. intros [_ ?]. done.
    + rewrite (unregister_agent_without_tasks _ _ _ _ Hagent Hout). simpl.
      split; [done|]. split; [|done]. intros _. by split.
  - assert (unregister_agent utcnow agent_id st
            = ((ErrorBody "Internal server error", 500), st)) as ->.
    { unfold unregister_agent, get_agent_row. by rewrite Hagent. }
    simpl. split; [done|]. split; [done|].
    intros [Hsome _]. exfalso. by eapply is_Some_None.
Qed.

(** ** The ledger *)

(** The row that [create_task] inserts. *)
Lemma create_task_for_agent utcnow uuid4 data st agent_id task_type agent :
  NewTask.agent_id data = Some agent_id →
  NewTask.task_type data = Some task_type →
  agents st !! agent_id = Some agent →
  create_task utcnow uuid4 data st
  = if decide (Agent.status agent ≠ "active")
    then ((ErrorBody "Agent is not active", 400), st)
    else
      let task :=
        Task.mk (next_rowid (tasks st)) uuid4 agent_id task_type
                (NewTask.parameters data) "pending" None None
                (default 5 (NewTask.priority data)) (utcnow 0%nat) None None in
      if decide (sqlite_integer (default 5 (NewTask.priority data)) ∧
                 fresh_uuid uuid4 st)
      then ((TaskBody task, 201), mkStore (agents st) (tasks st ++ [task]))
      else ((ErrorBody "Internal server error", 500), st).
Proof.
  intros Hid Hty Hagent. unfold create_task, get_agent_row, insert_task, fresh_uuid.
  rewrite Hid, Hty, Hagent. case_decide; simpl; [done|].
  destruct (NewTask.parameters data); simpl; repeat case_decide; simpl;
    try done; tauto.
Qed.

Lemma next_rowid_above l k : k ∈ l → (Task.id k < next_rowid l)%Z.
Proof.
  unfold next_rowid. induction 1 as [k l|k k' l _ IH]; simpl; lia.
Qed.

Lemma find_task_appended st uuid4 task :
  fresh_uuid uuid4 st →
  Task.task_id task = uuid4 →
  find_task (mkStore (agents st) (tasks st ++ [task])) uuid4
  = Some (length (tasks st), task).
Proof.
  intros Hfresh Hid. unfold find_task. simpl.
  rewrite list_find_app_r.
  - simpl. by rewrite decide_True by done.
  - apply list_find_None, Forall_forall. intros k Hk Heq.
    apply Hfresh, list_elem_of_fmap. by exists k.
Qed.

(** X8. What a task creation answers when it creates nothing, with the
    store unchanged each time: 400 naming agent_id when that field is
    absent; 400 naming task_type when agent_id is there and task_type is
    absent; 404 when the two are there and the agent is not registered; 400
    when the agent is registered but not [active]; 500 when the agent is
    active and the commit fails, because the priority does not fit a signed
    64-bit integer or because the task id is taken. No answer other than
    201 changes the store. *)
Theorem create_task_answers utcnow uuid4 data st :
  let r := create_task utcnow uuid4 data st in
  (NewTask.agent_id data = None →
   r = ((ErrorBody "Missing required field: agent_id", 400), st)) ∧
  (is_Some (NewTask.agent_id data) → NewTask.task_type data = None →
   r = ((ErrorBody "Missing required field: task_type", 400), st)) ∧
  (∀ agent_id,
     NewTask.agent_id data = Some agent_id →
     is_Some (NewTask.task_type data) →
     (agents st !! agent_id = None →
      r = ((ErrorBody "Agent not found", 404), st)) ∧
     (∀ agent,
        agents st !! agent_id = Some agent →
        (Agent.status agent ≠ "active" →
         r = ((ErrorBody "Agent is not active", 400), st)) ∧
        (Agent.status agent = "active" →
         ¬ sqlite_integer (default 5 (NewTask.priority data)) ∨
         ¬ fresh_uuid uuid4 st →
         r = ((ErrorBody "Internal server error", 500), st)))) ∧
  (r.1.2 ≠ 201 → r.2 = st).
Proof.
  cbv zeta. split; [|split; [|split]].
  - intros Hid. unfold create_task. by rewrite Hid.
  - intros [agent_id Hid] Hty. unfold create_task. by rewrite Hid, Hty.
  - intros agent_id Hid [task_type Hty]. split.
    + intros Hagent. unfold create_task, get_agent_row.
      by rewrite Hid, Hty, Hagent.
    + intros agent Hagent.
      rewrite (create_task_for_agent _ _ _ _ _ _ _ Hid Hty Hagent).
      split.
      * intros Hina. by rewrite decide_True.
      * intros Hact Hbad.
        rewrite decide_False by (intros Hne; by apply Hne).
        rewrite decide_False; [done|]. intros [? ?]. tauto.
  - destruct (NewTask.agent_id data) as [agent_id|] eqn:Hid;
      [|unfold create_task; by rewrite Hid].
    destruct (NewTask.task_type data) as [task_type|] eqn:Hty;
      [|unfold create_task; by rewrite Hid, Hty].
    destruct (agents st !! agent_id) as [agent|] eqn:Hagent;
      [|unfold create_task, get_agent_row; by rewrite Hid, Hty, Hagent].
    rewrite (create_task_for_agent _ _ _ _ _ _ _ Hid Hty Hagent).
    repeat case_decide; simpl; done.
Qed.

Lemma create_task_answers_witness :
  create_task clock0 "t3" (NewTask.mk None (Some "write") None None) store_t2
  = ((ErrorBody "Missing required field: agent_id", 400), store_t2) ∧
  create_task clock0 "t3" (NewTask.mk (Some "zz") (Some "write") None None)
              store_t2
  = ((ErrorBody "Agent not found", 404), store_t2) ∧
  create_task clock0 "t3"
              (NewTask.mk (Some "a1") (Some "write") (Some (2 ^ 63)) None)
              store_t2
  = ((ErrorBody "Internal server error", 500), store_t2) ∧
  create_task clock0 "t1" new_write_task store_t2
  = ((ErrorBody "Internal server error", 500), store_t2).
Proof.
  split; [|split; [|split]].
  - by apply (create_task_answers clock0 "t3"
                (NewTask.mk None (Some "write") None None) store_t2).
  - destruct (create_task_answers clock0 "t3"
                (NewTask.mk (Some "zz") (Some "write") None None) store_t2)
      as (_ & _ & Hagent & _).
    by apply (Hagent "zz" eq_refl (mk_is_Some _ _ eq_refl)).
  - destruct (create_task_answers clock0 "t3"
                (NewTask.mk (Some "a1") (Some "write") (Some (2 ^ 63)) None)
                store_t2)
      as (_ & _ & Hagent & _).
    destruct (Hagent "a1" eq_refl (mk_is_Some _ _ eq_refl)) as [_ Hrow].
    apply (Hrow agent_a1 eq_refl); [reflexivity|].
    left. unfold sqlite_integer. simpl. lia.
  - destruct (create_task_answers clock0 "t1" new_write_task store_t2)
      as (_ & _ & Hagent & _).
    destruct (Hagent "a1" eq_refl (mk_is_Some _ _ eq_refl)) as [_ Hrow].
    apply (Hrow agent_a1 eq_refl); [reflexivity|].
    right. unfold fresh_uuid. intros Hfresh. apply Hfresh.
    assert (Task.task_id <$> tasks store_t2 = ["t1"; "t2"]) as -> by reflexivity.
    apply list_elem_of_here.
Defined.

(** X9. Creating a task for a registered, active agent, with a priority
    that fits a signed 64-bit integer (or none) and a task id that no task
    has, answers 201 with the new row: [pending], the supplied
    agent, type and parameters, priority 5 unless supplied, no result,
    error message, started-at or completed-at, created-at now, and a row id
    above every row id of the table. The row is appended, the rows that
    were there and the agents are as before, and the task can be read back
    by its id. *)
Theorem create_task_created utcnow uuid4 data st agent_id task_type agent :
  NewTask.agent_id data = Some agent_id →
  NewTask.task_type data = Some task_type →
  agents st !! agent_id = Some agent →
  Agent.status agent = "active" →
  sqlite_integer (default 5 (NewTask.priority data)) →
  fresh_uuid uuid4 st →
  ∃ task,
    create_task utcnow uuid4 data st
    = ((TaskBody task, 201), mkStore (agents st) (tasks st ++ [task])) ∧
    Task.task_id task = uuid4 ∧ Task.agent_id task = agent_id ∧
    Task.task_type task = task_type ∧
    Task.parameters task = NewTask.parameters data ∧
    Task.status task = "pending" ∧
    Task.priority task = default 5 (NewTask.priority data) ∧
    Task.result task = None ∧ Task.error_message task = None ∧
    Task.started_at task = None ∧ Task.completed_at task = None ∧
    Task.created_at task = utcnow 0%nat ∧
    (∀ k, k ∈ tasks st → (Task.id k < Task.id task)%Z) ∧
    get_task (create_task utcnow uuid4 data st).2 uuid4 = (TaskBody task, 200).
Proof.
  intros Hid Hty Hagent Hactive Hprio Hfresh.
  rewrite (create_task_for_agent _ _ _ _ _ _ _ Hid Hty Hagent).
  rewrite decide_False by (intros Hne; by apply Hne).
  rewrite decide_True by done.
  eexists. split; [reflexivity|]. repeat (split; [done|]).
  split; [intros k; apply next_rowid_above|].
  unfold get_task. simpl. by rewrite find_task_appended.
Qed.

Lemma create_task_created_witness :
  ∃ task,
    create_task clock0 "t3" new_write_task store_t2
    = ((TaskBody task, 201),
       mkStore (agents store_t2) (tasks store_t2 ++ [task])) ∧
    Task.status task = "pending" ∧ Task.priority task = 5 ∧
    Task.id task = 3.
Proof.
  destruct (create_task_created clock0 "t3" new_write_task store_t2
              "a1" "write" agent_a1)
    as (task & Hcreate & _ & _ & _ & _ & Hstatus & Hprio & _);
    [reflexivity..| | |].
  - unfold sqlite_integer. simpl. lia.
  - unfold fresh_uuid.
    assert (Task.task_id <$> tasks store_t2 = ["t1"; "t2"]) as -> by reflexivity.
    rewrite !not_elem_of_cons, elem_of_nil.
    repeat split; discriminate || tauto.
  - exists task. split; [exact Hcreate|]. split; [exact Hstatus|].
    split; [exact Hprio|].
    injection Hcreate as Hbody _. by rewrite <-Hbody.
Defined.

(** ** Activity of an agent and the work it is given *)

Lemma agent_heartbeat_found utcnow agent_id st agent :
  agents st !! agent_id = Some agent →
  ∃ agent',
    agent_heartbeat utcnow agent_id st
    = ((StatusBody "heartbeat_received", 200),
       mkStore (<[agent_id := agent']> (agents st)) (tasks st)) ∧
    Agent.status agent' = "active" ∧ Agent.id agent' = Agent.id agent.
Proof.
  intros Hagent. unfold agent_heartbeat, get_agent_row. rewrite Hagent. simpl.
  eexists. split; [reflexivity|].
  match goal with |- context [flush_agent ?n ?o ?w] =>
    destruct (flush_agent_fields n o w) as (Hi & _ & _ & _ & _ & Hs & _)
  end.
  by rewrite Hi, Hs.
Qed.

Lemma execute_task_agent_inactive utcnow requests_post task_id st i task agent :
  find_task st task_id = Some (i, task) →
  agents st !! Task.agent_id task = Some agent →
  Agent.status agent ≠ "active" →
  ∃ msg,
    execute_task utcnow requests_post task_id st = ((ErrorBody msg, 400), st).
Proof.
  intros Hfind Hagent Hina. unfold execute_task, get_agent_row.
  rewrite Hfind. simpl. case_decide; [by eexists|].
  rewrite Hagent. rewrite decide_True by done. by eexists.
Qed.

(** X7. Once an update has set the status of an agent to something other
    than [active], no task can be created for it and none of its tasks can
    be dispatched: both answer 400 and write nothing. A heartbeat of the
    agent makes it [active], and a task can be created for it again: with a
    priority that fits a signed 64-bit integer and a task id that no task
    has, the creation answers 201. *)
Theorem inactive_agent_gets_no_work utcnow agent_id data st agent s :
  agents st !! agent_id = Some agent →
  AgentUpdate.status data = Some s →
  s ≠ "active" →
  let st1 := (update_agent utcnow agent_id data st).2 in
  (∀ clock uuid4 new_task,
     NewTask.agent_id new_task = Some agent_id →
     is_Some (NewTask.task_type new_task) →
     create_task clock uuid4 new_task st1
     = ((ErrorBody "Agent is not active", 400), st1)) ∧
  (∀ clock requests_post task_id i task,
     find_task st1 task_id = Some (i, task) →
     Task.agent_id task = agent_id →
     ∃ msg,
       execute_task clock requests_post task_id st1
       = ((ErrorBody msg, 400), st1)) ∧
  (∀ clock clock' uuid4 new_task,
     NewTask.agent_id new_task = Some agent_id →
     is_Some (NewTask.task_type new_task) →
     sqlite_integer (default 5 (NewTask.priority new_task)) →
     fresh_uuid uuid4 st →
     (create_task clock' uuid4 new_task
        (agent_heartbeat clock agent_id st1).2).1.2 = 201).
Proof.
  intros Hagent Hs Hne.
  destruct (update_agent_found utcnow agent_id data st agent Hagent)
    as (agent' & -> & _ & _ & _ & _ & Hstatus & _).
  rewrite Hs in Hstatus. simpl in *.
  set (st1 := mkStore (<[agent_id := agent']> (agents st)) (tasks st)).
  assert (agents st1 !! agent_id = Some agent') as Hrow
    by apply lookup_insert_eq.
  split; [|split].
  - intros clock uuid4 new_task Hid [ty Hty].
    rewrite (create_task_for_agent _ _ _ _ _ _ _ Hid Hty Hrow).
    rewrite decide_True; [done|]. by rewrite Hstatus.
  - intros clock requests_post task_id i task Hfind Htask.
    apply (execute_task_agent_inactive _ _ _ _ i task agent'); [done| |].
    + by rewrite Htask.
    + by rewrite Hstatus.
  - intros clock clock' uuid4 new_task Hid [ty Hty] Hprio Hfresh.
    destruct (agent_heartbeat_found clock agent_id st1 agent' Hrow)
      as (agent'' & -> & Hactive & _). simpl.
    rewrite (create_task_for_agent clock' uuid4 new_task _ agent_id ty agent''
               Hid Hty) by apply lookup_insert_eq.
    rewrite decide_False by (intros Hn; by apply Hn).
    by rewrite decide_True.
Qed.

Lemma inactive_agent_gets_no_work_witness :
  let st1 := (update_agent clock0 "a1" deactivate store_t2).2 in
  create_task clock0 "t3" new_write_task st1
  = ((ErrorBody "Agent is not active", 400), st1) ∧
  (∃ msg,
     execute_task clock0 (post_answers 200) "t2" st1
     = ((ErrorBody msg, 400), st1)) ∧
  (create_task clock0 "t3" new_write_task
     (agent_heartbeat clock0 "a1" st1).2).1.2 = 201.
Proof.
  destruct (inactive_agent_gets_no_work clock0 "a1" deactivate store_t2
              agent_a1 "inactive")
    as (Hcreate & Hexec & Hagain); [reflexivity|reflexivity|discriminate|].
  split; [|split].
  - apply Hcreate; [reflexivity|]. by exists "write".
  - apply (Hexec clock0 (post_answers 200) "t2" 1%nat row_t2); reflexivity.
  - apply Hagain; [reflexivity|by exists "write"| |].
    + unfold sqlite_integer. simpl. lia.
    + unfold fresh_uuid.
      assert (Task.task_id <$> tasks store_t2 = ["t1"; "t2"]) as ->
        by reflexivity.
      rewrite !not_elem_of_cons, elem_of_nil.
      repeat split; discriminate || tauto.
Defined.

(** ** What a request can do to the store *)

Lemma find_task_lookup st task_id i k :
  find_task st task_id = Some (i, k) →
  tasks st !! i = Some k ∧ Task.task_id k = task_id.
Proof. unfold find_task. rewrite list_find_Some. by intros (? & ? & _). Qed.

Lemma store_eta st : mkStore (agents st) (tasks st) = st.
Proof. by destruct st. Qed.

Lemma register_agent_step utcnow data st :
  store_step st (register_agent utcnow data st).2.
Proof.
  unfold register_agent, missing_registration_field, get_agent_row.
  destruct (Registration.id data) as [id|]; [|by left].
  destruct (Registration.name data); [|by left].
  destruct (Registration.endpoint data); [|by left]. simpl.
  destruct (agents st !! id) eqn:Hfree; [by left|]. simpl.
  right. left. eexists _, _. split; [reflexivity|]. left. split; [done|].
  by destruct (Registration.capabilities data).
Qed.

Lemma update_agent_step utcnow agent_id data st :
  store_step st (update_agent utcnow agent_id data st).2.
Proof.
  destruct (agents st !! agent_id) as [agent|] eqn:Hagent.
  - destruct (update_agent_found utcnow agent_id data st agent Hagent)
      as (agent' & -> & _ & _ & _ & _ & _ & Hid & _).
    right. left. eexists _, _. split; [reflexivity|]. right. by exists agent.
  - left. unfold update_agent, get_agent_row. by rewrite Hagent.
Qed.

Lemma agent_heartbeat_step utcnow agent_id st :
  store_step st (agent_heartbeat utcnow agent_id st).2.
Proof.
  destruct (agents st !! agent_id) as [agent|] eqn:Hagent.
  - destruct (agent_heartbeat_found utcnow agent_id st agent Hagent)
      as (agent' & -> & _ & Hid).
    right. left. eexists _, _. split; [reflexivity|]. right. by exists agent.
  - left. unfold agent_heartbeat, get_agent_row. by rewrite Hagent.
Qed.

Lemma unregister_agent_step utcnow agent_id st :
  store_step st (unregister_agent utcnow agent_id st).2.
Proof.
  destruct (agents st !! agent_id) as [agent|] eqn:Hagent.
  - destruct (decide (agent_id ∈ (Task.agent_id <$> tasks st))) as [Hin|Hout].
    + left. by rewrite (unregister_agent_with_tasks _ _ _ _ Hagent Hin).
    + right. right. left. exists agent_id.
      by rewrite (unregister_agent_without_tasks _ _ _ _ Hagent Hout).
  - left. unfold unregister_agent, get_agent_row. by rewrite Hagent.
Qed.

Lemma create_task_step utcnow uuid4 data st :
  store_step st (create_task utcnow uuid4 data st).2.
Proof.
  destruct (NewTask.agent_id data) as [agent_id|] eqn:Hid;
    [|left; unfold create_task; by rewrite Hid].
  destruct (NewTask.task_type data) as [task_type|] eqn:Hty;
    [|left; unfold create_task; by rewrite Hid, Hty].
  destruct (agents st !! agent_id) as [agent|] eqn:Hagent;
    [|left; unfold create_task, get_agent_row; by rewrite Hid, Hty, Hagent].
  rewrite (create_task_for_agent _ _ _ _ _ _ _ Hid Hty Hagent).
  case_decide; [by left|]. simpl.
  case_decide as Hok; [|by left]. destruct Hok as [_ Hfresh]. simpl.
  right. right. right. left. eexists. split; [reflexivity|]. simpl.
  split; [intros k; apply next_rowid_above|]. split; [done|].
  by rewrite Hagent.
Qed.

Lemma update_task_status_step utcnow task_id data st :
  store_step st (update_task_status utcnow task_id data st).2.
Proof.
  destruct (find_task st task_id) as [[i k]|] eqn:Hfind.
  - rewrite (update_task_status_found _ _ _ _ _ _ Hfind). simpl.
    right. right. right. right. eexists i, k, _. split; [reflexivity|].
    split; [by apply (find_task_lookup _ _ _ _ Hfind)|].
    apply apply_status_update_fields.
  - left. unfold update_task_status. by rewrite Hfind.
Qed.

Lemma execute_task_step utcnow requests_post task_id st :
  store_step st (execute_task utcnow requests_post task_id st).2.
Proof.
  unfold execute_task, get_agent_row.
  destruct (find_task st task_id) as [[i k]|] eqn:Hfind; [|by left]. simpl.
  case_decide; [by left|].
  destruct (agents st !! Task.agent_id k) as [agent|]; [|by left].
  case_decide; [by left|].
  assert (∀ k', same_identity k k' →
            store_step st (mkStore (agents st) (<[i := k']> (tasks st))))
    as Hstep.
  { intros k' Hk'. right. right. right. right. exists i, k, k'.
    split; [done|]. split; [|done]. by apply (find_task_lookup _ _ _ _ Hfind). }
  destruct (requests_post _ _) as [c|e|e]; [case_decide| |]; simpl;
    by apply Hstep.
Qed.

Lemma handle_step utcnow requests_post r st :
  store_step st (handle utcnow requests_post r st).2.
Proof.
  destruct r; simpl;
    auto using register_agent_step, update_agent_step, agent_heartbeat_step,
      unregister_agent_step, create_task_step, update_task_status_step,
      execute_task_step.
Qed.

Lemma replace_row_columns {B} (f : Task.t → B) (l : list Task.t) i k k' :
  l !! i = Some k → f k' = f k → f <$> <[i := k']> l = f <$> l.
Proof.
  intros Hi Hf. rewrite list_fmap_insert, Hf.
  apply list_insert_id. by rewrite list_lookup_fmap, Hi.
Qed.

(** X10. Every request keeps the keys of the ledger unique: no two tasks
    share a row id, and no two share a task id (a created task being given
    a task id that no task has). *)
Theorem handle_keeps_keys_unique utcnow requests_post r st :
  ledger_keys_unique st →
  request_fresh r st →
  ledger_keys_unique (handle utcnow requests_post r st).2.
Proof.
  intros [Hids Htids] Hfresh.
  destruct (handle_step utcnow requests_post r st)
    as [->|[(i & a' & -> & _)|[(i & -> & _)|
        [(k & -> & Habove & Hnew & _)|(i & k & k' & -> & Hi & Hsame)]]]];
    try done; unfold ledger_keys_unique; simpl.
  - rewrite !fmap_app. simpl. split.
    + apply NoDup_app. split; [done|]. split; [|apply NoDup_singleton].
      intros x Hx. rewrite list_elem_of_singleton. intros ->.
      apply list_elem_of_fmap in Hx as (k0 & Hk0 & Hin).
      specialize (Habove k0 Hin). lia.
    + apply NoDup_app. split; [done|]. split; [|apply NoDup_singleton].
      intros x Hx. rewrite list_elem_of_singleton. by intros ->.
  - destruct Hsame as (Hid & Htid & _).
    by rewrite !(replace_row_columns _ _ _ _ _ Hi).
Qed.

(** X11. Every request keeps the references of the store resolved: each
    agent is stored under its own id, and each task belongs to an agent
    that is registered; in particular no request leaves a task pointing at
    an agent that is gone. *)
Theorem handle_keeps_references utcnow requests_post r st :
  references_resolved st →
  request_fresh r st →
  references_resolved (handle utcnow requests_post r st).2.
Proof.
  intros [Hkeys Hrefs] Hfresh.
  destruct (handle_step utcnow requests_post r st)
    as [->|[(i & a' & -> & Ha')|[(i & -> & Hfree)|
        [(k & -> & _ & _ & Hagent)|(i & k & k' & -> & Hi & Hsame)]]]];
    try done; unfold references_resolved; simpl.
  - split.
    + intros j a. destruct (decide (i = j)) as [<-|Hne].
      * rewrite lookup_insert_eq. intros [= <-].
        destruct Ha' as [[_ ?]|(a0 & Ha0 & ->)]; [done|]. by apply Hkeys.
      * rewrite lookup_insert_ne by done. apply Hkeys.
    + intros k Hk. destruct (decide (i = Task.agent_id k)) as [<-|Hne].
      * by rewrite lookup_insert_eq.
      * rewrite lookup_insert_ne by done. by apply Hrefs.
  - split.
    + intros j a Hj. apply lookup_delete_Some in Hj as [_ Hj]. by apply Hkeys.
    + intros k Hk. rewrite lookup_delete_ne; [by apply Hrefs|].
      intros ->. apply Hfree, list_elem_of_fmap. by exists k.
  - split; [done|]. intros k0. rewrite elem_of_app, list_elem_of_singleton.
    intros [Hk0| ->]; [by apply Hrefs|done].
  - split; [done|]. intros k0 Hk0.
    apply list_elem_of_lookup in Hk0 as [j Hj].
    destruct (decide (i = j)) as [<-|Hne].
    + assert (i < length (tasks st))%nat by (by eapply lookup_lt_Some).
      rewrite list_lookup_insert_eq in Hj by done. injection Hj as <-.
      destruct Hsame as (_ & _ & -> & _). apply Hrefs.
      apply list_elem_of_lookup. by exists i.
    + rewrite list_lookup_insert_ne in Hj by done. apply Hrefs.
      apply list_elem_of_lookup. by exists j.
Qed.

(** X12. No request removes a task or moves it, and no request changes
    the id, task id, agent, type, parameters, priority or created-at of a
    task: the row that was at a position of the table is still there with
    these columns as before. *)
Theorem handle_keeps_tasks utcnow requests_post r st i k :
  request_fresh r st →
  tasks st !! i = Some k →
  ∃ k', tasks (handle utcnow requests_post r st).2 !! i = Some k' ∧
        same_identity k k'.
Proof.
  intros Hfresh Hk.
  assert (same_identity k k) as Hrefl by (by unfold same_identity).
  destruct (handle_step utcnow requests_post r st)
    as [->|[(j & a' & -> & _)|[(j & -> & _)|
        [(k0 & -> & _)|(j & k1 & k' & -> & Hj & Hsame)]]]]; simpl.
  - by exists k.
  - by exists k.
  - by exists k.
  - exists k. split; [|done]. by apply lookup_app_l_Some.
  - destruct (decide (j = i)) as [->|Hne].
    + exists k'. rewrite Hk in Hj. injection Hj as <-.
      split; [|done]. apply list_lookup_insert_eq. by eapply lookup_lt_Some.
    + exists k. by rewrite list_lookup_insert_ne.
Qed.

Lemma store_t2_keys_unique : ledger_keys_unique store_t2.
Proof.
  split.
  - assert (Task.id <$> tasks store_t2 = [1; 2]%Z) as -> by reflexivity.
    apply (bool_decide_unpack _). by vm_compute.
  - assert (Task.task_id <$> tasks store_t2 = ["t1"; "t2"]) as -> by reflexivity.
    apply (bool_decide_unpack _). by vm_compute.
Defined.

Lemma store_t2_references : references_resolved store_t2.
Proof.
  assert (agents store_t2 = <["a1" := agent_a1]> ∅) as Hagents by reflexivity.
  split.
  - intros i a. rewrite Hagents. rewrite lookup_insert_Some, lookup_empty.
    by intros [[<- <-]|[_ ?]].
  - intros k. assert (tasks store_t2 = [row_t1; row_t2]) as -> by reflexivity.
    rewrite !elem_of_cons, elem_of_nil. rewrite Hagents.
    intros [->|[->|[]]]; by rewrite lookup_insert_eq.
Defined.

Lemma handle_keeps_keys_unique_witness :
  ledger_keys_unique
    (handle clock0 (post_answers 200) (CreateTask "t3" new_write_task) store_t2).2.
Proof.
  apply handle_keeps_keys_unique; [exact store_t2_keys_unique|].
  unfold request_fresh, fresh_uuid.
  assert (Task.task_id <$> tasks store_t2 = ["t1"; "t2"]) as -> by reflexivity.
  rewrite !not_elem_of_cons, elem_of_nil.
  repeat split; discriminate || tauto.
Defined.

Lemma handle_keeps_references_witness :
  references_resolved
    (handle clock0 (post_answers 200) (UnregisterAgent "a1") store_t2).2.
Proof.
  apply handle_keeps_references; [exact store_t2_references|exact I].
Defined.

Lemma handle_keeps_tasks_witness :
  ∃ k',
    tasks (handle clock0 post_times_out (ExecuteTask "t2") store_t2).2 !! 1%nat
    = Some k' ∧
    same_identity row_t2 k'.
Proof.
  apply handle_keeps_tasks; [exact I|reflexivity].
Defined.

(** ** Reading back, dispatching once, and the counts *)

Lemma find_task_replaced st task_id i k k' :
  find_task st task_id = Some (i, k) →
  Task.task_id k' = Task.task_id k →
  find_task (mkStore (agents st) (<[i := k']> (tasks st))) task_id
  = Some (i, k').
Proof.
  unfold find_task. simpl. rewrite list_find_Some. intros (Hi & Hk & Hearlier) Hid.
  apply list_find_insert_Some. right. left.
  split; [done|]. split; [done|]. split; [by eapply lookup_lt_Some|].
  split; [by rewrite Hid|]. done.
Qed.

(** X13. What a status update answers is what a later read of the task
    answers; and an update that supplies no field at all, for an existing
    task, writes nothing. *)
Theorem update_task_status_read_back utcnow task_id data st i task :
  find_task st task_id = Some (i, task) →
  let r := update_task_status utcnow task_id data st in
  ∃ task',
    r.1 = (TaskBody task', 200) ∧
    get_task r.2 task_id = (TaskBody task', 200) ∧
    (data = StatusUpdate.mk None None None → r.2 = st ∧ task' = task).
Proof.
  intros Hfind. rewrite (update_task_status_found _ _ _ _ _ _ Hfind). simpl.
  eexists. split; [reflexivity|]. split.
  - unfold get_task. rewrite (find_task_replaced _ _ _ _ _ Hfind); [done|].
    by destruct (apply_status_update_fields (utcnow 0%nat) data task)
      as (_ & _ & _ & _ & _ & _ & -> & _).
  - intros ->. simpl. split; [|done].
    rewrite list_insert_id; [apply store_eta|].
    by apply (find_task_lookup _ _ _ _ Hfind).
Qed.

Lemma update_task_status_read_back_witness :
  ∃ task',
    (update_task_status clock0 "t2" report_completed store_t2_running).1
    = (TaskBody task', 200) ∧
    get_task (update_task_status clock0 "t2" report_completed store_t2_running).2
             "t2"
    = (TaskBody task', 200).
Proof.
  destruct (update_task_status_read_back clock0 "t2" report_completed
              store_t2_running 1%nat row_t2_running)
    as (task' & Hresp & Hget & _); [reflexivity|].
  exists task'. split; assumption.
Defined.

(** A row other than the one found is rewritten, or a row is appended:
    the task is found where it was. *)
Lemma find_task_replaced_other st task_id i k j kj kj' :
  find_task st task_id = Some (i, k) →
  tasks st !! j = Some kj →
  Task.task_id kj ≠ task_id →
  Task.task_id kj' = Task.task_id kj →
  find_task (mkStore (agents st) (<[j := kj']> (tasks st))) task_id
  = Some (i, k).
Proof.
  unfold find_task. simpl. rewrite !list_find_Some.
  intros (Hi & Hk & Hearlier) Hj Hne Hid.
  assert (i ≠ j) as Hij.
  { intros ->. rewrite Hi in Hj. injection Hj as <-. done. }
  split; [by rewrite list_lookup_insert_ne|]. split; [done|].
  intros m y Hm Hlt. destruct (decide (j = m)) as [<-|Hjm].
  - rewrite list_lookup_insert_eq in Hm by (by eapply lookup_lt_Some).
    injection Hm as <-. by rewrite Hid.
  - rewrite list_lookup_insert_ne in Hm by done. by eapply Hearlier.
Qed.

Lemma find_task_same_tasks st st' task_id :
  tasks st' = tasks st → find_task st' task_id = find_task st task_id.
Proof. unfold find_task. by intros ->. Qed.

Lemma find_task_kept_on_append st st' task_id i k task :
  tasks st' = (tasks st ++ [task])%list →
  find_task st task_id = Some (i, k) →
  find_task st' task_id = Some (i, k).
Proof.
  unfold find_task. intros -> Hfind. by apply list_find_app_l.
Qed.

(** The requests on agents leave the tasks as they are; a creation leaves
    them or appends one. *)
Lemma register_agent_tasks utcnow data st :
  tasks (register_agent utcnow data st).2 = tasks st.
Proof.
  unfold register_agent, missing_registration_field, get_agent_row.
  destruct (Registration.id data) as [id|]; [|done].
  destruct (Registration.name data); [|done].
  destruct (Registration.endpoint data); [|done]. simpl.
  by destruct (agents st !! id).
Qed.

Lemma update_agent_tasks utcnow agent_id data st :
  tasks (update_agent utcnow agent_id data st).2 = tasks st.
Proof.
  destruct (agents st !! agent_id) as [agent|] eqn:Hagent.
  - by destruct (update_agent_found utcnow agent_id data st agent Hagent)
      as (agent' & -> & _).
  - unfold update_agent, get_agent_row. by rewrite Hagent.
Qed.

Lemma agent_heartbeat_tasks utcnow agent_id st :
  tasks (agent_heartbeat utcnow agent_id st).2 = tasks st.
Proof.
  destruct (agents st !! agent_id) as [agent|] eqn:Hagent.
  - by destruct (agent_heartbeat_found utcnow agent_id st agent Hagent)
      as (agent' & -> & _).
  - unfold agent_heartbeat, get_agent_row. by rewrite Hagent.
Qed.

Lemma unregister_agent_tasks utcnow agent_id st :
  tasks (unregister_agent utcnow agent_id st).2 = tasks st.
Proof.
  destruct (agents st !! agent_id) as [agent|] eqn:Hagent.
  - destruct (decide (agent_id ∈ (Task.agent_id <$> tasks st))) as [Hin|Hout].
    + by rewrite (unregister_agent_with_tasks _ _ _ _ Hagent Hin).
    + by rewrite (unregister_agent_without_tasks _ _ _ _ Hagent Hout).
  - unfold unregister_agent, get_agent_row. by rewrite Hagent.
Qed.

Lemma create_task_tasks utcnow uuid4 data st :
  tasks (create_task utcnow uuid4 data st).2 = tasks st ∨
  ∃ task, tasks (create_task utcnow uuid4 data st).2 = (tasks st ++ [task])%list.
Proof.
  destruct (NewTask.agent_id data) as [agent_id|] eqn:Hid;
    [|left; unfold create_task; by rewrite Hid].
  destruct (NewTask.task_type data) as [task_type|] eqn:Hty;
    [|left; unfold create_task; by rewrite Hid, Hty].
  destruct (agents st !! agent_id) as [agent|] eqn:Hagent;
    [|left; unfold create_task, get_agent_row; by rewrite Hid, Hty, Hagent].
  rewrite (create_task_for_agent _ _ _ _ _ _ _ Hid Hty Hagent).
  case_decide; [by left|]. simpl. case_decide; [|by left].
  right. by eexists.
Qed.

(** What a dispatch writes: nothing, or the row of a pending task, which
    is then no longer pending. *)
Lemma execute_task_store utcnow requests_post task_id st :
  (execute_task utcnow requests_post task_id st).2 = st ∨
  ∃ i k k',
    find_task st task_id = Some (i, k) ∧ Task.status k = "pending" ∧
    (execute_task utcnow requests_post task_id st).2
    = mkStore (agents st) (<[i := k']> (tasks st)) ∧
    Task.task_id k' = Task.task_id k ∧ Task.agent_id k' = Task.agent_id k ∧
    Task.status k' ≠ "pending".
Proof.
  destruct (find_task st task_id) as [[i k]|] eqn:Hfind;
    [|left; unfold execute_task; by rewrite Hfind].
  destruct (decide (Task.status k = "pending")) as [Hpending|Hne];
    [|left; unfold execute_task; rewrite Hfind; simpl; by rewrite decide_True].
  destruct (get_agent_row st (Task.agent_id k)) as [agent|] eqn:Hagent;
    [|left; unfold execute_task; rewrite Hfind; simpl;
      rewrite decide_False by (intros Hn; by apply Hn); by rewrite Hagent].
  destruct (decide (Agent.status agent = "active")) as [Hactive|Hina];
    [|left; unfold execute_task; rewrite Hfind; simpl;
      rewrite decide_False by (intros Hn; by apply Hn); rewrite Hagent;
      by rewrite decide_True].
  right. exists i, k.
  rewrite (execute_task_ready _ _ _ _ _ _ _ Hfind Hpending Hagent Hactive).
  destruct (dispatch_call requests_post agent k) as [c|e|e]; simpl;
    [case_decide|..]; simpl; eexists; by repeat split.
Qed.

(** A task that is not pending stays so, where it is and with its agent,
    through every request but a status update that sets it back. *)
Lemma handle_keeps_not_pending utcnow requests_post r st task_id i k :
  find_task st task_id = Some (i, k) →
  Task.status k ≠ "pending" →
  ¬ resets task_id r →
  ∃ k',
    find_task (handle utcnow requests_post r st).2 task_id = Some (i, k') ∧
    Task.agent_id k' = Task.agent_id k ∧ Task.status k' ≠ "pending".
Proof.
  intros Hfind Hstatus Hreset.
  pose proof (find_task_lookup _ _ _ _ Hfind) as [Hi Htid].
  destruct r as [data|agent_id data|agent_id|agent_id|uuid4 data|tid data|tid];
    simpl in *.
  - exists k. by rewrite (find_task_same_tasks st) by apply register_agent_tasks.
  - exists k. by rewrite (find_task_same_tasks st) by apply update_agent_tasks.
  - exists k. by rewrite (find_task_same_tasks st) by apply agent_heartbeat_tasks.
  - exists k. by rewrite (find_task_same_tasks st) by apply unregister_agent_tasks.
  - exists k. split; [|done].
    destruct (create_task_tasks utcnow uuid4 data st) as [Heq|[task Heq]].
    + by rewrite (find_task_same_tasks st).
    + by apply (find_task_kept_on_append st _ _ _ _ task).
  - destruct (find_task st tid) as [[j kj]|] eqn:Hfind'.
    2: { exists k. unfold update_task_status. by rewrite Hfind'. }
    rewrite (update_task_status_found _ _ _ _ _ _ Hfind'). simpl.
    destruct (apply_status_update_fields (utcnow 0%nat) data kj)
      as (Hst & _ & _ & _ & _ & _ & Htid' & Hagent' & _).
    destruct (decide (tid = task_id)) as [->|Hne].
    + rewrite Hfind in Hfind'. injection Hfind' as <- <-.
      eexists. split; [by apply (find_task_replaced _ _ _ k)|].
      split; [done|]. rewrite Hst.
      destruct (StatusUpdate.status data) as [s|]; simpl; [|done].
      intros ->. by apply Hreset.
    + exists k. split; [|done].
      pose proof (find_task_lookup _ _ _ _ Hfind') as [Hj Hjid].
      apply (find_task_replaced_other _ _ _ _ _ kj); try done.
      by rewrite Hjid.
  - destruct (execute_task_store utcnow requests_post tid st)
      as [->|(j & kj & kj' & Hfind' & Hpending & -> & Htid' & _)];
      [by exists k|].
    destruct (decide (tid = task_id)) as [->|Hne].
    + rewrite Hfind in Hfind'. injection Hfind' as <- <-. done.
    + exists k. split; [|done].
      pose proof (find_task_lookup _ _ _ _ Hfind') as [Hj Hjid].
      apply (find_task_replaced_other _ _ _ _ _ kj); try done.
      by rewrite Hjid.
Qed.

Lemma run_keeps_not_pending steps st task_id i k :
  find_task st task_id = Some (i, k) →
  Task.status k ≠ "pending" →
  Forall (λ s : step, ¬ resets task_id s.2) steps →
  ∃ k',
    find_task (run steps st) task_id = Some (i, k') ∧
    Task.agent_id k' = Task.agent_id k ∧ Task.status k' ≠ "pending".
Proof.
  intros Hfind Hstatus Hsteps. revert st k Hfind Hstatus.
  induction Hsteps as [|s steps Hs _ IH]; intros st k Hfind Hstatus; simpl.
  - by exists k.
  - destruct (handle_keeps_not_pending s.1.1 s.1.2 s.2 st task_id i k
                Hfind Hstatus Hs) as (k1 & Hfind1 & Hagent1 & Hstatus1).
    destruct (IH _ k1 Hfind1 Hstatus1) as (k' & Hfind' & Hagent' & Hstatus').
    exists k'. split; [done|]. split; [|done]. by rewrite Hagent'.
Qed.

(** X14. A task whose dispatch was attempted is not dispatched again
    unless a status update sets it back to [pending]. After the dispatch of
    a pending task of an active agent, whatever the network did, and after
    any further requests none of which is a status update of this task that
    supplies the status [pending], every dispatch of the task answers 400
    [Task is not in pending status] and writes nothing. A status update
    that supplies [pending] undoes this: if the agent is then active, the
    next dispatch that the agent accepts answers [task_sent_to_agent]. *)
Theorem execute_task_only_once utcnow requests_post task_id st i task agent
    steps :
  find_task st task_id = Some (i, task) →
  Task.status task = "pending" →
  get_agent_row st (Task.agent_id task) = Some agent →
  Agent.status agent = "active" →
  Forall (λ s : step, ¬ resets task_id s.2) steps →
  let st' := run steps (execute_task utcnow requests_post task_id st).2 in
  (∀ utcnow' requests_post',
     execute_task utcnow' requests_post' task_id st'
     = ((ErrorBody "Task is not in pending status", 400), st')) ∧
  (∀ utcnow1 utcnow2 data agent',
     StatusUpdate.status data = Some "pending" →
     get_agent_row st' (Task.agent_id task) = Some agent' →
     Agent.status agent' = "active" →
     (execute_task utcnow2 (post_answers 200) task_id
        (update_task_status utcnow1 task_id data st').2).1
     = (StatusBody "task_sent_to_agent", 200)).
Proof.
  intros Hfind Hpending Hagent Hactive Hsteps. cbv zeta.
  destruct (execute_task_store utcnow requests_post task_id st)
    as [Hsame|(i' & k0 & k1 & Hfind0 & _ & Heq & Htid1 & Hagent1 & Hstatus1)].
  { exfalso. revert Hsame.
    rewrite (execute_task_ready _ _ _ _ _ _ _ Hfind Hpending Hagent Hactive).
    pose proof (find_task_lookup _ _ _ _ Hfind) as [Hi _].
    assert (∀ k', Task.status k' ≠ "pending" →
                  mkStore (agents st) (<[i := k']> (tasks st)) ≠ st) as Hne.
    { intros k' Hk' Heq. apply (f_equal tasks) in Heq. simpl in Heq.
      assert (<[i := k']> (tasks st) !! i = Some k') as Hrow
        by (apply list_lookup_insert_eq; by eapply lookup_lt_Some).
      rewrite Heq, Hi in Hrow. injection Hrow as <-. done. }
    destruct (dispatch_call requests_post agent task) as [c|e|e]; simpl;
      [case_decide|..]; simpl; by apply Hne. }
  rewrite Hfind in Hfind0. injection Hfind0 as <- <-.
  rewrite Heq.
  assert (find_task (mkStore (agents st) (<[i := k1]> (tasks st))) task_id
          = Some (i, k1)) as Hfind1
    by (by apply (find_task_replaced _ _ _ task)).
  destruct (run_keeps_not_pending steps _ task_id i k1 Hfind1 Hstatus1 Hsteps)
    as (k' & Hfind' & Hagent' & Hstatus').
  set (st' := run steps (mkStore (agents st) (<[i := k1]> (tasks st)))) in *.
  split.
  - intros utcnow' requests_post'. unfold execute_task. rewrite Hfind'. simpl.
    by rewrite decide_True.
  - intros utcnow1 utcnow2 data agent' Hdata Hrow Hact.
    rewrite (update_task_status_found _ _ _ _ _ _ Hfind'). simpl.
    destruct (apply_status_update_fields (utcnow1 0%nat) data k')
      as (Hst & _ & _ & _ & _ & _ & Htid' & Hag' & _).
    rewrite Hdata in Hst. simpl in Hst.
    rewrite (execute_task_ready utcnow2 (post_answers 200) task_id _ i
               (apply_status_update (utcnow1 0%nat) data k') agent'); [done| |done| |done].
    + by apply (find_task_replaced _ _ _ k').
    + unfold get_agent_row. simpl. rewrite Hag', Hagent', Hagent1. exact Hrow.
Qed.

Lemma execute_task_only_once_witness :
  let st' :=
    run [(clock0, post_answers 200, UpdateTaskStatus "t2" report_completed);
         (clock0, post_answers 200, Heartbeat "a1")]
        (execute_task clock0 post_times_out "t2" store_t2).2 in
  execute_task clock0 (post_answers 200) "t2" st'
  = ((ErrorBody "Task is not in pending status", 400), st') ∧
  (execute_task clock0 (post_answers 200) "t2"
     (update_task_status clock0 "t2" (StatusUpdate.mk (Some "pending") None None)
        st').2).1
  = (StatusBody "task_sent_to_agent", 200).
Proof.
  destruct (execute_task_only_once clock0 post_times_out "t2" store_t2 1%nat
              row_t2 agent_a1
              [(clock0, post_answers 200, UpdateTaskStatus "t2" report_completed);
               (clock0, post_answers 200, Heartbeat "a1")])
    as [Honce Hagain]; [reflexivity..| |].
  - repeat constructor; simpl; [by intros [_ [=]]|tauto].
  - split; [apply Honce|].
    apply (Hagain clock0 clock0 (StatusUpdate.mk (Some "pending") None None)
             agent_a1);
      reflexivity.
Defined.



Lemma count_tasks_replaced s st i k k' :
  tasks st !! i = Some k →
  (count_tasks s (mkStore (agents st) (<[i := k']> (tasks st)))
   + (if decide (Task.status k = s) then 1 else 0))%nat
  = (count_tasks s st + (if decide (Task.status k' = s) then 1 else 0))%nat.
Proof.
  destruct st as [agts l]. simpl. revert i.
  induction l as [|k0 l IH]; intros i Hi; [done|].
  destruct i as [|i]; simpl in *.
  - injection Hi as ->. rewrite !count_tasks_cons. lia.
  - rewrite !count_tasks_cons. specialize (IH i Hi). lia.
Qed.

Lemma count_tasks_appended s st k :
  count_tasks s (mkStore (agents st) (tasks st ++ [k]))
  = (count_tasks s st + (if decide (Task.status k = s) then 1 else 0))%nat.
Proof.
  unfold count_tasks. simpl. rewrite filter_app, length_app. f_equal.
  rewrite filter_cons. by case_decide.
Qed.

(** X16. The counts of the aggregate status follow the life of a task.
    A task created for an active agent, with a priority that fits a signed
    64-bit integer and a task id that no task has, adds one to [pending] and
    leaves the other counts. The dispatch of a pending task of an active
    agent moves one from [pending]: to [running] when the agent answered
    200, to [failed] when it answered another code or the call raised a
    [RequestException], and to [running] when the call raised another
    exception; the other counts are as before. *)
Theorem counts_follow_dispatch utcnow requests_post st :
  (∀ uuid4 data agent_id task_type agent,
     NewTask.agent_id data = Some agent_id →
     NewTask.task_type data = Some task_type →
     agents st !! agent_id = Some agent →
     Agent.status agent = "active" →
     sqlite_integer (default 5 (NewTask.priority data)) →
     fresh_uuid uuid4 st →
     let st' := (create_task utcnow uuid4 data st).2 in
     count_tasks "pending" st' = S (count_tasks "pending" st) ∧
     ∀ s, s ≠ "pending" → count_tasks s st' = count_tasks s st) ∧
  (∀ task_id i task agent,
     find_task st task_id = Some (i, task) →
     Task.status task = "pending" →
     get_agent_row st (Task.agent_id task) = Some agent →
     Agent.status agent = "active" →
     let st' := (execute_task utcnow requests_post task_id st).2 in
     let landed :=
       match dispatch_call requests_post agent task with
       | HttpResponse c => if decide (c = 200) then "running" else "failed"
       | RequestException _ => "failed"
       | OtherException _ => "running"
       end in
     S (count_tasks "pending" st') = count_tasks "pending" st ∧
     count_tasks landed st' = S (count_tasks landed st) ∧
     ∀ s, s ≠ "pending" → s ≠ landed → count_tasks s st' = count_tasks s st).
Proof.
  split.
  - intros uuid4 data agent_id task_type agent Hid Hty Hagent Hactive
      Hprio Hfresh.
    rewrite (create_task_for_agent _ _ _ _ _ _ _ Hid Hty Hagent).
    rewrite decide_False by (intros Hn; by apply Hn).
    rewrite decide_True by done. simpl.
    split.
    + rewrite count_tasks_appended. simpl. lia.
    + intros s Hs. rewrite count_tasks_appended. simpl.
      rewrite decide_False by done. lia.
  - intros task_id i task agent Hfind Hpending Hagent Hactive.
    rewrite (execute_task_ready _ _ _ _ _ _ _ Hfind Hpending Hagent Hactive).
    pose proof (find_task_lookup _ _ _ _ Hfind) as [Hi _].
    assert (∀ k' landed, Task.status k' = landed → landed ≠ "pending" →
      let st' := mkStore (agents st) (<[i := k']> (tasks st)) in
      S (count_tasks "pending" st') = count_tasks "pending" st ∧
      count_tasks landed st' = S (count_tasks landed st) ∧
      ∀ s, s ≠ "pending" → s ≠ landed → count_tasks s st' = count_tasks s st)
      as Hmove.
    { intros k' landed Hk' Hland. simpl.
      split; [|split].
      - pose proof (count_tasks_replaced "pending" st _ _ k' Hi) as H.
        rewrite Hpending, Hk' in H. rewrite decide_True in H by done.
        rewrite decide_False in H by done. lia.
      - pose proof (count_tasks_replaced landed st _ _ k' Hi) as H.
        rewrite Hpending, Hk' in H.
        rewrite decide_False in H by (intros Heq; by apply Hland).
        rewrite decide_True in H by done. lia.
      - intros s Hs1 Hs2.
        pose proof (count_tasks_replaced s st _ _ k' Hi) as H.
        rewrite Hpending, Hk' in H.
        rewrite !decide_False in H by (intros Heq; by (apply Hs1 || apply Hs2)).
        lia. }
    destruct (dispatch_call requests_post agent task) as [c|e|e]; simpl.
    + destruct (decide (c = 200)) as [->|Hc]; by apply Hmove.
    + by apply Hmove.
    + by apply Hmove.
Qed.

Lemma counts_follow_dispatch_witness :
  count_tasks "pending" (create_task clock0 "t3" new_write_task store_t2).2 = 3%nat ∧
  count_tasks "pending" (execute_task clock0 (post_answers 200) "t2" store_t2).2
  = 1%nat ∧
  count_tasks "running" (execute_task clock0 (post_answers 200) "t2" store_t2).2
  = 1%nat.
Proof.
  destruct (counts_follow_dispatch clock0 (post_answers 200) store_t2)
    as [Hcreate Hexec].
  destruct (Hcreate "t3" new_write_task "a1" "write" agent_a1)
    as [Hc _]; [reflexivity..| | |].
  { unfold sqlite_integer. simpl. lia. }
  { unfold fresh_uuid.
    assert (Task.task_id <$> tasks store_t2 = ["t1"; "t2"]) as -> by reflexivity.
    rewrite !not_elem_of_cons, elem_of_nil.
    repeat split; discriminate || tauto. }
  destruct (Hexec "t2" 1%nat row_t2 agent_a1)
    as (Hp & Hr & _); [reflexivity..|].
  split; [|split].
  - etrans; [exact Hc|reflexivity].
  - apply eq_add_S. etrans; [exact Hp|reflexivity].
  - etrans; [exact Hr|reflexivity].
Defined.

(** * The agent side *)

(** X17. Handling a dispatched task, an agent sends at most two status
    reports, all for the task id of the request, and none exactly when the
    task id or the task type is missing or empty. For a type it does not
    support it sends one report, [failed] with [Unsupported task type] and
    the type, and replies with that error. For a type it supports it
    reports [running], calls the executor with the task id, the type and the
    parameters of the request (an empty object when there are none), and
    then reports what the executor did: [completed] with the result the
    executor returned and no error message, replying with that result; or
    [failed] with [Task execution failed] and the text of the exception the
    executor raised and no result, replying with that error. *)
Theorem handle_task_request_reports supported execute_task task_data :
  let r := MCPAgent.handle_task_request supported execute_task task_data in
  let task_id := default "" (TaskData.task_id task_data) in
  let task_type := default "" (TaskData.task_type task_data) in
  let parameters := default "{}" (TaskData.parameters task_data) in
  (length r.1 ≤ 2)%nat ∧
  (∀ rep, rep ∈ r.1 → rep.1 = task_id) ∧
  (r.1 = [] ↔ task_id = "" ∨ task_type = "") ∧
  (task_id = "" ∨ task_type = "" →
   r.2 = ReplyError "Missing task_id or task_type") ∧
  (task_id ≠ "" → task_type ≠ "" → task_type ∉ supported →
   r = ([(task_id,
          StatusUpdate.mk (Some "failed") None
            (Some ("Unsupported task type: " +:+ task_type)))],
        ReplyError ("Unsupported task type: " +:+ task_type))) ∧
  (task_id ≠ "" → task_type ≠ "" → task_type ∈ supported →
   match execute_task task_id task_type parameters with
   | Returned result =>
       r = ([(task_id, StatusUpdate.mk (Some "running") None None);
             (task_id, StatusUpdate.mk (Some "completed") result None)],
            ReplyCompleted result)
   | Raised e =>
       r = ([(task_id, StatusUpdate.mk (Some "running") None None);
             (task_id,
              StatusUpdate.mk (Some "failed") None
                (Some ("Task execution failed: " +:+ e)))],
            ReplyError ("Task execution failed: " +:+ e))
   end).
Proof.
  unfold MCPAgent.handle_task_request, MCPAgent.update_task_status. simpl.
  set (task_id := default "" (TaskData.task_id task_data)).
  set (task_type := default "" (TaskData.task_type task_data)).
  destruct (decide (task_id = "" ∨ task_type = "")) as [Hmissing|Hthere]; simpl.
  { split; [lia|]. split; [by intros ? ?%elem_of_nil|].
    split; [done|]. split; [done|]. split; intros; tauto. }
  destruct (decide (task_type ∉ supported)) as [Hunsup|Hsup]; simpl.
  { split; [lia|].
    split; [by intros ? ->%list_elem_of_singleton|].
    split; [split; [done|tauto]|].
    split; [tauto|]. split; [done|]. intros _ _ Hin. by destruct Hunsup. }
  assert (task_type ∈ supported) as Hin
    by (destruct (decide (task_type ∈ supported)); tauto).
  destruct (execute_task _ _ _) as [result|e]; simpl.
  - split; [lia|].
    split; [intros rep; rewrite !elem_of_cons, elem_of_nil;
            by intros [->|[->|[]]]|].
    split; [split; [done|tauto]|].
    split; [tauto|]. split; [intros; tauto|]. done.
  - split; [lia|].
    split; [intros rep; rewrite !elem_of_cons, elem_of_nil;
            by intros [->|[->|[]]]|].
    split; [split; [done|tauto]|].
    split; [tauto|]. split; [intros; tauto|]. done.
Qed.

Lemma handle_task_request_reports_witness :
  MCPAgent.handle_task_request blog_task_types (exec_returns "true")
    generate_blog_data
  = ([("t9", StatusUpdate.mk (Some "running") None None);
      ("t9", StatusUpdate.mk (Some "completed") (Some "true") None)],
     ReplyCompleted (Some "true")) ∧
  MCPAgent.handle_task_request blog_task_types (exec_raises "no network")
    generate_blog_data
  = ([("t9", StatusUpdate.mk (Some "running") None None);
      ("t9", StatusUpdate.mk (Some "failed") None
               (Some "Task execution failed: no network"))],
     ReplyError "Task execution failed: no network") ∧
  MCPAgent.handle_task_request news_task_types (exec_returns "true")
    generate_blog_data
  = ([("t9", StatusUpdate.mk (Some "failed") None
               (Some "Unsupported task type: generate_blog"))],
     ReplyError "Unsupported task type: generate_blog").
Proof.
  assert ("generate_blog" ∈ blog_task_types) as Hblog
    by (unfold blog_task_types; apply elem_of_cons; by left).
  assert ("generate_blog" ∉ news_task_types) as Hnews.
  { unfold news_task_types. rewrite !not_elem_of_cons, elem_of_nil.
    repeat split; discriminate || tauto. }
  split; [|split].
  - destruct (handle_task_request_reports blog_task_types (exec_returns "true")
                generate_blog_data) as (_ & _ & _ & _ & _ & Hsup).
    by apply Hsup.
  - destruct (handle_task_request_reports blog_task_types
                (exec_raises "no network") generate_blog_data)
      as (_ & _ & _ & _ & _ & Hsup).
    by apply Hsup.
  - destruct (handle_task_request_reports news_task_types (exec_returns "true")
                generate_blog_data) as (_ & _ & _ & _ & Hunsup & _).
    by apply Hunsup.
Defined.

(** X18. The executors of the blog agent and of the news agent catch
    every exception of their branches and return a dict, so for a supported
    task type these agents report [running] and then [completed] with a
    result whatever happened in the branch; a failure of the work is never
    reported as [failed]. *)
Theorem guarded_executor_reports_completed error_result branches supported
    task_data task_id task_type :
  TaskData.task_id task_data = Some task_id →
  TaskData.task_type task_data = Some task_type →
  task_id ≠ "" →
  task_type ≠ "" →
  task_type ∈ supported →
  ∃ result,
    MCPAgent.handle_task_request supported
      (guarded_execute_task error_result branches) task_data
    = ([(task_id, StatusUpdate.mk (Some "running") None None);
        (task_id, StatusUpdate.mk (Some "completed") (Some result) None)],
       ReplyCompleted (Some result)) ∧
    (∀ e,
       branches task_id task_type (default "{}" (TaskData.parameters task_data))
       = inr e →
       result = error_result e).
Proof.
  intros Hid Hty Hne Htyne Hsup.
  unfold MCPAgent.handle_task_request, MCPAgent.update_task_status,
    guarded_execute_task.
  rewrite Hid, Hty. simpl.
  rewrite decide_False by tauto.
  rewrite decide_False by tauto.
  destruct (branches _ _ _) as [result|e].
  - exists result. split; [done|]. by intros e.
  - exists (error_result e). split; [done|]. by intros e' [= <-].
Qed.

Lemma guarded_executor_reports_completed_witness :
  ∃ result,
    MCPAgent.handle_task_request blog_task_types
      (guarded_execute_task error_result_plain (branches_raise "database is locked"))
      generate_blog_data
    = ([("t9", StatusUpdate.mk (Some "running") None None);
        ("t9", StatusUpdate.mk (Some "completed") (Some result) None)],
       ReplyCompleted (Some result)) ∧
    result = "error: database is locked".
Proof.
  destruct (guarded_executor_reports_completed error_result_plain
              (branches_raise "database is locked") blog_task_types
              generate_blog_data "t9" "generate_blog")
    as (result & Hreports & Hresult);
    [reflexivity|reflexivity|discriminate|discriminate| |].
  - unfold blog_task_types. apply elem_of_cons. by left.
  - exists result. split; [exact Hreports|]. by apply Hresult.
Defined.

(** When the POST returns an answer, [register_with_mcp] returns the
    outcome of its test of the status code. *)
Example register_with_mcp_answered status_code :
  MCPAgent.register_with_mcp (HttpResponse status_code)
  = Some (MCPAgent.registered status_code).
Proof. reflexivity. Qed.

(** X19. An agent starts only when the coordinator answers 201 to its
    registration: with a free id the agent is then registered as [active]
    under its own id, name and local endpoint; with an id that is still
    registered (an agent that comes back without having been unregistered)
    [start] returns false and the registry is as before. *)
Theorem agent_start_registers utcnow self st :
  match agents st !! MCPAgent.agent_id self with
  | None =>
      (agent_start utcnow self st).1 = true ∧
      ∃ agent,
        agents (agent_start utcnow self st).2 !! MCPAgent.agent_id self
        = Some agent ∧
        Agent.status agent = "active" ∧
        Agent.name agent = MCPAgent.name self ∧
        Agent.description agent = MCPAgent.description self ∧
        Agent.endpoint agent
        = "http://localhost:" +:+ pretty (MCPAgent.agent_port self) ∧
        Agent.capabilities agent = Some (MCPAgent.capabilities self)
  | Some _ =>
      (agent_start utcnow self st).1 = false ∧
      (agent_start utcnow self st).2 = st
  end.
Proof.
  unfold agent_start, post_agents.
  destruct (agents st !! MCPAgent.agent_id self) as [existing|] eqn:Hrow.
  - assert (register_agent utcnow (MCPAgent.registration_data self) st
            = ((ErrorBody "Agent with this ID already exists", 409), st)) as ->.
    { unfold register_agent, get_agent_row. simpl. by rewrite Hrow. }
    done.
  - rewrite (register_agent_created utcnow (MCPAgent.registration_data self) st
               _ _ _ eq_refl eq_refl eq_refl Hrow).
    simpl. split; [done|]. eexists. split; [apply lookup_insert_eq|]. done.
Qed.

Example agent_start_again :
  (agent_start clock0 blog_agent (mkStore ∅ [])).1 = true ∧
  (agent_start clock0 blog_agent (agent_start clock0 blog_agent (mkStore ∅ [])).2).1
  = false.
Proof. split; reflexivity. Qed.

(** * Dispatch and reports together *)

Lemma deliver_reports_one_task clocks n reports st task_id i k :
  find_task st task_id = Some (i, k) →
  Forall (λ rep : report, rep.1 = task_id) reports →
  deliver_reports clocks n reports st
  = mkStore (agents st) (<[i := apply_reports clocks n reports k]> (tasks st)).
Proof.
  intros Hfind Hall. revert n st k Hfind.
  induction Hall as [|[tid data] reports Hrep _ IH]; intros n st k Hfind; simpl.
  - rewrite (list_insert_id _ i k); [by rewrite store_eta|].
    by apply (find_task_lookup _ _ _ _ Hfind).
  - simpl in Hrep. subst tid.
    rewrite (update_task_status_found _ _ _ _ _ _ Hfind). simpl.
    rewrite (IH _ _ (apply_status_update (clocks n 0%nat) data k)).
    + simpl. by rewrite list_insert_insert_eq.
    + apply (find_task_replaced _ _ _ k); [done|].
      by destruct (apply_status_update_fields (clocks n 0%nat) data k)
        as (_ & _ & _ & _ & _ & _ & -> & _).
Qed.

Lemma reports_for_cases supported execute_task k :
  reports_for supported execute_task k
  = if decide (Task.task_id k = "" ∨ Task.task_type k = "") then []
    else if decide (Task.task_type k ∉ supported)
    then [(Task.task_id k,
           StatusUpdate.mk (Some "failed") None
             (Some ("Unsupported task type: " +:+ Task.task_type k)))]
    else
      match execute_task (Task.task_id k) (Task.task_type k) (get_parameters k) with
      | Returned result =>
          [(Task.task_id k, StatusUpdate.mk (Some "running") None None);
           (Task.task_id k, StatusUpdate.mk (Some "completed") result None)]
      | Raised e =>
          [(Task.task_id k, StatusUpdate.mk (Some "running") None None);
           (Task.task_id k,
            StatusUpdate.mk (Some "failed") None
              (Some ("Task execution failed: " +:+ e)))]
      end.
Proof.
  unfold reports_for, MCPAgent.execute_endpoint, MCPAgent.handle_task_request,
    MCPAgent.update_task_status, task_data_of. simpl.
  repeat case_decide; try done.
  by destruct (execute_task _ _ _).
Qed.

(** The three reports an agent sends, applied to a task that the
    dispatcher has marked as running. *)
Lemma running_report_fields now k :
  Task.status k = "running" →
  apply_status_update now (StatusUpdate.mk (Some "running") None None) k = k.
Proof.
  intros Hst. destruct k; simpl in *; subst. reflexivity.
Qed.

Lemma terminal_report_fields now s result msg k :
  s ∈ terminal_statuses →
  let k' := apply_status_update now (StatusUpdate.mk (Some s) result msg) k in
  Task.status k' = s ∧
  Task.started_at k' = Task.started_at k ∧
  Task.completed_at k' = Some now ∧
  Task.result k' = from_option Some (Task.result k) result ∧
  Task.error_message k' = from_option Some (Task.error_message k) msg.
Proof.
  intros Hs.
  destruct (apply_status_update_fields now (StatusUpdate.mk (Some s) result msg) k)
    as (H1 & H2 & H3 & H4 & H5 & _). simpl in *.
  rewrite decide_False in H2
    by (intros [[= ->] _]; by apply running_not_terminal).
  rewrite decide_True in H3 by done.
  done.
Qed.

(** X20. Dispatch and the agent together, for a pending task of an
    active agent whose endpoint the POST reaches. The agent handles the
    task, executor included, before it answers. When its answer comes
    within the 30 seconds the dispatcher waits, the dispatch is acknowledged
    with [task_sent_to_agent] whatever the agent made of the task, since the
    endpoint answers 200 to every body it can read. The dispatcher has
    committed the running row before it posts and writes nothing after a
    200, so the reports of the agent act on that row: started-at stays the
    time of the dispatch, and once the coordinator has handled the reports
    the task is still [running] when its type is empty (the agent reports
    nothing), [failed] with [Unsupported task type] when the agent does not
    support the type, [completed] with the result when the executor
    returned, [failed] with [Task execution failed] when it raised. When
    the answer does not come in time, the dispatch answers 500 and writes
    [failed], the text of the read timeout as error message and
    completed-at to the row, whatever the agent does. *)
Theorem dispatch_then_reports utcnow clocks supported execute_agent
    task_id st i task agent :
  find_task st task_id = Some (i, task) →
  Task.status task = "pending" →
  get_agent_row st (Task.agent_id task) = Some agent →
  Agent.status agent = "active" →
  let r :=
    execute_task utcnow (agent_endpoint supported execute_agent None) task_id st in
  let st2 :=
    deliver_reports clocks 0 (reports_for supported execute_agent task) r.2 in
  r.1 = (StatusBody "task_sent_to_agent", 200) ∧
  (∀ e,
     let late :=
       execute_task utcnow (agent_endpoint supported execute_agent (Some e))
                    task_id st in
     late.1 = (ErrorBody "Failed to communicate with agent", 500) ∧
     ∃ failed,
       tasks late.2 !! i = Some failed ∧
       Task.status failed = "failed" ∧
       Task.error_message failed
       = Some ("Failed to communicate with agent: " +:+ e) ∧
       Task.completed_at failed = Some (utcnow 1%nat)) ∧
  ∃ final,
    st2 = mkStore (agents st) (<[i := final]> (tasks st)) ∧
    Task.started_at final = Some (utcnow 0%nat) ∧
    (task_id = "" ∨ Task.task_type task = "" →
       Task.status final = "running" ∧
       Task.completed_at final = Task.completed_at task) ∧
    (task_id ≠ "" → Task.task_type task ≠ "" →
     Task.task_type task ∉ supported →
       Task.status final = "failed" ∧
       Task.error_message final
       = Some ("Unsupported task type: " +:+ Task.task_type task) ∧
       Task.result final = Task.result task ∧
       Task.completed_at final = Some (clocks 0%nat 0%nat)) ∧
    (task_id ≠ "" → Task.task_type task ≠ "" →
     Task.task_type task ∈ supported →
       match execute_agent task_id (Task.task_type task) (get_parameters task) with
       | Returned result =>
           Task.status final = "completed" ∧
           Task.result final = from_option Some (Task.result task) result ∧
           Task.error_message final = Task.error_message task ∧
           Task.completed_at final = Some (clocks 1%nat 0%nat)
       | Raised e =>
           Task.status final = "failed" ∧
           Task.error_message final = Some ("Task execution failed: " +:+ e) ∧
           Task.result final = Task.result task ∧
           Task.completed_at final = Some (clocks 1%nat 0%nat)
       end).
Proof.
  intros Hfind Hpending Hagent Hactive.
  pose proof (find_task_lookup _ _ _ _ Hfind) as [Hi Htid].
  cbv zeta. split; [|split].
  { rewrite (execute_task_ready _ _ _ _ _ _ _ Hfind Hpending Hagent Hactive).
    by assert (dispatch_call (agent_endpoint supported execute_agent None)
                 agent task = HttpResponse 200) as -> by reflexivity. }
  { intros e.
    rewrite (execute_task_ready _ _ _ _ _ _ _ Hfind Hpending Hagent Hactive).
    assert (dispatch_call (agent_endpoint supported execute_agent (Some e))
              agent task = RequestException e) as -> by reflexivity.
    simpl. split; [done|]. eexists.
    split; [apply list_lookup_insert_eq; by eapply lookup_lt_Some|done]. }
  rewrite (execute_task_ready _ _ _ _ _ _ _ Hfind Hpending Hagent Hactive).
  assert (dispatch_call (agent_endpoint supported execute_agent None) agent task
          = HttpResponse 200) as -> by reflexivity.
  simpl.
  set (running := Task.set_started_at (utcnow 0%nat)
                    (Task.set_status "running" task)).
  assert (find_task (mkStore (agents st) (<[i := running]> (tasks st))) task_id
          = Some (i, running)) as Hfind1
    by (by apply (find_task_replaced _ _ _ task)).
  assert (reports_for supported execute_agent task
          = reports_for supported execute_agent running) as Hsame by reflexivity.
  assert (Forall (λ rep : report, rep.1 = task_id)
                 (reports_for supported execute_agent task)) as Hall.
  { rewrite reports_for_cases, Htid.
    repeat case_decide; [constructor|by repeat constructor|].
    destruct (execute_agent _ _ _); by repeat constructor. }
  rewrite (deliver_reports_one_task _ _ _ _ _ _ _ Hfind1 Hall). simpl.
  rewrite list_insert_insert_eq.
  eexists. split; [reflexivity|].
  rewrite reports_for_cases, Htid.
  destruct (decide (task_id = "" ∨ Task.task_type task = "")) as [Hempty|Hfull].
  { cbn [apply_reports]. split; [done|]. split; [done|]. split; intros; tauto. }
  destruct (decide (Task.task_type task ∉ supported)) as [Hunsup|Hsup].
  { cbn [apply_reports snd].
    destruct (terminal_report_fields (clocks 0%nat 0%nat) "failed" None
                (Some ("Unsupported task type: " +:+ Task.task_type task)) running)
      as (H1 & H2 & H3 & H4 & H5); [apply terminal_cases; tauto|].
    split; [by rewrite H2|]. split; [tauto|].
    split; [done|]. intros _ _ Hin. by destruct Hunsup. }
  assert (Task.task_type task ∈ supported) as Hin
    by (destruct (decide (Task.task_type task ∈ supported)); tauto).
  destruct (execute_agent task_id (Task.task_type task) (get_parameters task))
    as [result|e] eqn:Hexec; cbn [apply_reports snd];
    rewrite (running_report_fields _ running) by done.
  - destruct (terminal_report_fields (clocks 1%nat 0%nat) "completed" result
                None running)
      as (H1 & H2 & H3 & H4 & H5); [apply terminal_cases; tauto|].
    split; [by rewrite H2|]. split; [tauto|]. split; [tauto|]. done.
  - destruct (terminal_report_fields (clocks 1%nat 0%nat) "failed" None
                (Some ("Task execution failed: " +:+ e)) running)
      as (H1 & H2 & H3 & H4 & H5); [apply terminal_cases; tauto|].
    split; [by rewrite H2|]. split; [tauto|]. split; [tauto|]. done.
Qed.

Lemma dispatch_then_reports_witness :
  let r := execute_task clock0 (agent_endpoint ["write"] (exec_returns "true") None)
             "t2" store_t2 in
  r.1 = (StatusBody "task_sent_to_agent", 200) ∧
  (execute_task clock0
     (agent_endpoint ["write"] (exec_returns "true") (Some "Read timed out."))
     "t2" store_t2).1
  = (ErrorBody "Failed to communicate with agent", 500) ∧
  ∃ final,
    deliver_reports request_clocks 0
      (reports_for ["write"] (exec_returns "true") row_t2) r.2
    = mkStore (agents store_t2) (<[1%nat := final]> (tasks store_t2)) ∧
    Task.started_at final = Some 1000 ∧
    Task.status final = "completed" ∧
    Task.result final = Some "true" ∧
    Task.completed_at final = Some 7100.
Proof.
  destruct (dispatch_then_reports clock0 request_clocks ["write"]
              (exec_returns "true") "t2" store_t2 1%nat row_t2 agent_a1)
    as (Hresp & Hlate & final & Hstore & Hstart & _ & _ & Hdone);
    [reflexivity..|].
  split; [exact Hresp|].
  split; [exact (proj1 (Hlate "Read timed out."))|]. exists final.
  destruct Hdone as (Hstatus & Hresult & _ & Hcompl);
    [discriminate|discriminate|apply elem_of_cons; by left|].
  repeat split; assumption.
Defined.

(** X23. Stopping and starting an agent again. When no task references
    the agent, [stop] removes its record and a later [start] registers it
    afresh and returns true. When some task references it, in whatever
    status, [stop] leaves the store as it was, so the record stays and a
    later [start] is answered 409 and returns false. *)
Theorem agent_stop_then_start utcnow utcnow' self st agent :
  agents st !! MCPAgent.agent_id self = Some agent →
  let st' := agent_stop utcnow self st in
  (MCPAgent.agent_id self ∉ (Task.agent_id <$> tasks st) →
     agents st' !! MCPAgent.agent_id self = None ∧
     (agent_start utcnow' self st').1 = true) ∧
  (MCPAgent.agent_id self ∈ (Task.agent_id <$> tasks st) →
     st' = st ∧ (agent_start utcnow' self st').1 = false).
Proof.
  intros Hagent. unfold agent_stop. split.
  - intros Hfree.
    rewrite (unregister_agent_without_tasks _ _ _ _ Hagent Hfree). simpl.
    assert (delete (MCPAgent.agent_id self) (agents st)
              !! MCPAgent.agent_id self = None) as Hgone
      by apply lookup_delete_eq.
    split; [done|]. unfold agent_start, post_agents.
    by rewrite (register_agent_created utcnow' (MCPAgent.registration_data self)
                  (mkStore (delete (MCPAgent.agent_id self) (agents st)) (tasks st))
                  _ _ _ eq_refl eq_refl eq_refl Hgone).
  - intros Href.
    rewrite (unregister_agent_with_tasks _ _ _ _ Hagent Href). simpl.
    split; [done|]. unfold agent_start, post_agents, register_agent, get_agent_row.
    simpl. by rewrite Hagent.
Qed.

Lemma agent_stop_then_start_witness :
  agent_stop clock0 blog_agent store_t2 = store_t2 ∧
  (agent_start clock0 blog_agent (agent_stop clock0 blog_agent store_t2)).1 = false.
Proof.
  destruct (agent_stop_then_start clock0 clock0 blog_agent store_t2 agent_a1)
    as [_ Hkept]; [reflexivity|].
  apply Hkept. simpl. apply elem_of_cons. by left.
Defined.

(** * Configuration settings *)

Lemma find_configuration_lookup (tbl : config_table) key i c :
  find_configuration tbl key = Some (i, c) →
  tbl !! i = Some c ∧ Configuration.key c = key.
Proof. unfold find_configuration. rewrite list_find_Some. by intros (? & ? & _). Qed.

(** X21. Creating a configuration setting. When key or value is absent
    the answer is 400 and the table is as before. When both are supplied,
    as text, and a setting with the key exists, the answer is 409 and the
    table is as before. When both are supplied and no setting has the key,
    the answer is 201 with the new setting, which has the supplied key and
    value and the description or the empty text, is appended to the table
    and is then found under its key. No answer other than 201 changes the
    table, and keys that are unique stay unique. *)
Theorem create_configuration_effects utcnow data (tbl : config_table) :
  let r := create_configuration utcnow data tbl in
  (NewConfiguration.key data = None ∨ NewConfiguration.value data = None →
   r = ((ConfigErrorBody "Missing required fields: key, value", 400), tbl)) ∧
  (∀ key value,
     NewConfiguration.key data = Some key →
     NewConfiguration.value data = Some value →
     (is_Some (find_configuration tbl key) →
      r = ((ConfigErrorBody "Configuration with this key already exists", 409),
           tbl)) ∧
     (find_configuration tbl key = None →
      ∃ config,
        r = ((ConfigBody config, 201), (tbl ++ [config])%list) ∧
        Configuration.key config = key ∧
        Configuration.value config = value ∧
        Configuration.description config
        = default "" (NewConfiguration.description data) ∧
        Configuration.created_at config = utcnow 0%nat ∧
        find_configuration r.2 key = Some (length tbl, config))) ∧
  (r.1.2 ≠ 201 → r.2 = tbl) ∧
  (NoDup (Configuration.key <$> tbl) → NoDup (Configuration.key <$> r.2)).
Proof.
  cbv zeta. unfold create_configuration.
  split; [|split; [|split]].
  - intros [Hkey|Hvalue].
    + by rewrite Hkey.
    + rewrite Hvalue. by destruct (NewConfiguration.key data).
  - intros key value Hkey Hvalue. rewrite Hkey, Hvalue. split.
    + by intros [existing ->].
    + intros Hfind. rewrite Hfind. simpl.
      eexists. split; [reflexivity|]. simpl. repeat (split; [done|]).
      unfold find_configuration.
      rewrite list_find_app_r by exact Hfind.
      simpl. by rewrite decide_True.
  - destruct (NewConfiguration.key data) as [key|]; [|done].
    destruct (NewConfiguration.value data) as [value|]; [|done].
    by destruct (find_configuration tbl key).
  - destruct (NewConfiguration.key data) as [key|]; [|done].
    destruct (NewConfiguration.value data) as [value|]; [|done].
    destruct (find_configuration tbl key) as [existing|] eqn:Hfind; [done|].
    simpl. intros Hnodup. rewrite fmap_app. apply NoDup_app.
    split; [done|]. split; [|apply NoDup_singleton].
    intros k Hk. simpl. rewrite list_elem_of_singleton. intros ->.
    apply list_elem_of_fmap in Hk as (c & Hc & Hin).
    apply list_find_None in Hfind. rewrite Forall_forall in Hfind.
    by apply (Hfind c).
Qed.

Lemma create_configuration_effects_witness :
  create_configuration clock0 new_setting table_one
  = ((ConfigErrorBody "Configuration with this key already exists", 409),
     table_one) ∧
  ∃ config,
    create_configuration clock0 new_setting []
    = ((ConfigBody config, 201), [config]) ∧
    Configuration.value config = "30" ∧
    Configuration.description config = "".
Proof.
  split.
  - destruct (create_configuration_effects clock0 new_setting table_one)
      as (_ & Hsupplied & _).
    destruct (Hsupplied "refresh_seconds" "30" eq_refl eq_refl) as [Hexists _].
    apply Hexists. by eexists.
  - destruct (create_configuration_effects clock0 new_setting [])
      as (_ & Hsupplied & _).
    destruct (Hsupplied "refresh_seconds" "30" eq_refl eq_refl) as [_ Hfree].
    destruct (Hfree eq_refl) as (config & Hcreate & _ & Hvalue & Hdescr & _).
    exists config. repeat split; assumption.
Defined.

Lemma flush_configuration_fields now old new :
  let c := flush_configuration now old new in
  Configuration.id c = Configuration.id new ∧
  Configuration.key c = Configuration.key new ∧
  Configuration.value c = Configuration.value new ∧
  Configuration.description c = Configuration.description new ∧
  Configuration.created_at c = Configuration.created_at new ∧
  (Configuration.updated_at c = Configuration.updated_at new ∨
   Configuration.updated_at c = now).
Proof.
  unfold flush_configuration. destruct (decide (new = old)) as [->|_].
  - repeat split; by left.
  - case_decide; simpl; repeat split; auto.
Qed.

(** X22. Updating a configuration setting that exists answers 200 with
    the stored row and rewrites that row only: value and description are
    written exactly when supplied, updated-at is a clock reading of this
    request, id, key and created-at are as before, so the keys of the table
    are as before. For a key that does not exist the answer is 500 and the
    table is as before. *)
Theorem update_configuration_effects utcnow config_key data (tbl : config_table) :
  match find_configuration tbl config_key with
  | Some (i, config) =>
      ∃ config',
        update_configuration utcnow config_key data tbl
        = ((ConfigBody config', 200), <[i := config']> tbl) ∧
        Configuration.value config'
        = default (Configuration.value config) (ConfigurationUpdate.value data) ∧
        Configuration.description config'
        = default (Configuration.description config)
                  (ConfigurationUpdate.description data) ∧
        (Configuration.updated_at config' = utcnow 0%nat ∨
         Configuration.updated_at config' = utcnow 1%nat) ∧
        Configuration.id config' = Configuration.id config ∧
        Configuration.key config' = config_key ∧
        Configuration.created_at config' = Configuration.created_at config ∧
        Configuration.key <$> <[i := config']> tbl = Configuration.key <$> tbl
  | None =>
      update_configuration utcnow config_key data tbl
      = ((ConfigErrorBody "Internal server error", 500), tbl)
  end.
Proof.
  unfold update_configuration.
  destruct (find_configuration tbl config_key) as [[i config]|] eqn:Hfind;
    simpl; [|done].
  destruct (find_configuration_lookup _ _ _ _ Hfind) as [Hi Hkey].
  eexists. split; [reflexivity|].
  match goal with |- context [flush_configuration ?n ?o ?w] =>
    destruct (flush_configuration_fields n o w)
      as (Hid & Hk & Hv & Hd & Hc & Hu)
  end.
  assert (∀ c', Configuration.key c' = Configuration.key config →
                Configuration.key <$> <[i := c']> tbl = Configuration.key <$> tbl)
    as Hkeys.
  { intros c' Hc'. rewrite list_fmap_insert, Hc'.
    apply list_insert_id. by rewrite list_lookup_fmap, Hi. }
  rewrite Hid, Hk, Hv, Hd, Hc.
  destruct data as [v d]; simpl in *.
  destruct v, d; simpl in *; repeat split; try done;
    try (destruct Hu as [->| ->]; [by left|by right]);
    apply Hkeys; by rewrite Hk.
Qed.

Example configuration_round_trip :
  find_configuration table_one "refresh_seconds"
  = Some (0%nat, Configuration.mk 1 "refresh_seconds" "30" "" 1000 1001) ∧
  (create_configuration clock0 new_setting table_one).1.2 = 409 ∧
  (update_configuration (λ n, 2000 + Z.of_nat n) "refresh_seconds"
     (ConfigurationUpdate.mk (Some "60") None) table_one).2
  = [Configuration.mk 1 "refresh_seconds" "60" "" 1000 2000].
Proof. repeat split; reflexivity. Qed.

